(** * race-analyzer: the data transform of [app.py]

    A shallow embedding of the pure part of [app.py]: the duration parser
    [time_to_seconds], the table builder [process_data], the chart builder
    [create_figure] and the callback [update_graph], followed by the
    properties claimed for them.

    Modelling conventions.
    - A Python [str] is a Rocq [string]; the model covers ASCII text
      (code points below 128).
    - A pandas number is an integer of seconds or a rank, kept in [Z];
      [np.nan] in a numeric column is [None].  A column is int64, or
      float64 once it holds a missing value; both hold an integer, a sum
      and a difference exactly while the numbers stay within the exact
      range ([exact_table]), and there the arithmetic in [Z] is the
      arithmetic of the columns.  Beyond it an int64 column wraps and a
      float64 column rounds; every statement that depends on the value of
      a sum or of a difference carries the bound.
    - The library functions [base64.b64decode] and [pd.read_csv] are
      parameters.
    - A raised exception is the [Raise] branch of [result]. *)

From Stdlib Require Import String Ascii ZArith List Bool Lia QArith DecimalString.
From Stdlib Require Import Permutation Sorted.
Import ListNotations.

Local Open Scope string_scope.
Local Open Scope Z_scope.

(** ** Exceptions *)

Inductive exn : Type :=
| ValueError (literal : string)   (* invalid literal for int() with base 10 *)
| AttributeError                  (* a number has no attribute 'split' *)
| TypeError                       (* 'NoneType' object is not subscriptable *)
| UnpackError                     (* ValueError: not enough, or too many, values to unpack *)
| binascii_Error.                 (* base64.b64decode refuses the payload *)

Inductive result (A : Type) : Type :=
| Ok (a : A)
| Raise (e : exn).

Arguments Ok {A} a.
Arguments Raise {A} e.

Definition bind {A B} (m : result A) (k : A -> result B) : result B :=
  match m with
  | Ok a => k a
  | Raise e => Raise e
  end.

Notation "x <- m ;; k" := (bind m (fun x => k))
  (at level 61, m at next level, right associativity).

Definition raises {A} (m : result A) : Prop := exists e, m = Raise e.
Definition returns {A} (m : result A) : Prop := exists a, m = Ok a.

(** [Series.apply(f)]: [f] on each element in index order; the first
    exception ends the traversal. *)
Fixpoint apply {A B} (f : A -> result B) (l : list A) : result (list B) :=
  match l with
  | [] => Ok []
  | a :: l' => b <- f a ;; bs <- apply f l' ;; Ok (b :: bs)
  end.

(** ** Python string primitives *)

Module Py.

(** [s.split(sep)] for a one-character separator: never empty, one more
    part than there are separators. *)
Fixpoint split (sep : ascii) (s : string) : list string :=
  match s with
  | EmptyString => [EmptyString]
  | String c t =>
      if Ascii.eqb c sep then EmptyString :: split sep t
      else match split sep t with
           | p :: ps => String c p :: ps
           | [] => [String c EmptyString]
           end
  end.

(** [Py_ISSPACE]: tab, newline, vertical tab, form feed, carriage return,
    space. *)
Definition is_space (c : ascii) : bool :=
  let n := nat_of_ascii c in
  (((9 <=? n)%nat && (n <=? 13)%nat) || (n =? 32)%nat)%bool.

Definition digit_val (c : ascii) : option Z :=
  let n := Z.of_nat (nat_of_ascii c) in
  if ((48 <=? n) && (n <=? 57))%bool then Some (n - 48) else None.

Fixpoint skip_spaces (s : string) : string :=
  match s with
  | String c t => if is_space c then skip_spaces t else s
  | EmptyString => EmptyString
  end.

(** The digits after the first one.  A single underscore may sit between
    two digits; the scan stops at the first other character and hands back
    what is left. *)
Fixpoint more_digits (acc : Z) (s : string) : option (Z * string) :=
  match s with
  | EmptyString => Some (acc, EmptyString)
  | String c t =>
      match digit_val c with
      | Some d => more_digits (acc * 10 + d) t
      | None =>
          if Ascii.eqb c "_" then
            match t with
            | String c' t' =>
                match digit_val c' with
                | Some d => more_digits (acc * 10 + d) t'
                | None => None
                end
            | EmptyString => None
            end
          else Some (acc, s)
      end
  end.

(** The literal that [int(s)] reads in base 10 (CPython's
    [PyLong_FromString]): optional blanks, an optional sign, at least one
    digit, optional blanks. *)
Definition int_literal (s : string) : option Z :=
  let s1 := skip_spaces s in
  let '(neg, s2) :=
    match s1 with
    | String "+" t => (false, t)
    | String "-" t => (true, t)
    | _ => (false, s1)
    end in
  match s2 with
  | String c t =>
      match digit_val c with
      | Some d =>
          match more_digits d t with
          | Some (n, rest) =>
              match skip_spaces rest with
              | EmptyString => Some (if neg then - n else n)
              | _ => None
              end
          | None => None
          end
      | None => None
      end
  | EmptyString => None
  end.

(** [sys.int_info.default_max_str_digits]: the most digits a decimal
    literal may have (CPython 3.11 and later). *)
Definition max_str_digits : nat := 4300.

(** The digits of a text; underscores, blanks and the sign do not count. *)
Fixpoint digit_count (s : string) : nat :=
  match s with
  | EmptyString => 0
  | String c t =>
      match digit_val c with
      | Some _ => S (digit_count t)
      | None => digit_count t
      end
  end.

(** [int(s)] in base 10.  [None] is [ValueError]: the text is no literal,
    or it has more than [max_str_digits] digits. *)
Definition int (s : string) : option Z :=
  if (digit_count s <=? max_str_digits)%nat then int_literal s else None.

(** [sub in s] *)
Fixpoint contains (sub s : string) : bool :=
  (String.prefix sub s
   || match s with
      | EmptyString => false
      | String _ t => contains sub t
      end)%bool.

(** [s.split(sep)[0]]: what stands before the first occurrence of [sep]. *)
Fixpoint before (sep s : string) : string :=
  match s with
  | EmptyString => EmptyString
  | String c t => if String.prefix sep s then EmptyString else String c (before sep t)
  end.

(** [f"{y:.0f}"] on an integer-valued number. *)
Definition format_0f (y : Z) : string := NilZero.string_of_int (Z.to_int y).

End Py.

(** ** [time_to_seconds] *)

(** A cell of a column as [read_csv] delivers it: a missing value, text, or
    a number when the whole column was numeric. *)
Inductive cell : Type :=
| CNaN
| CStr (s : string)
| CNum (n : Z).

Definition int_or_raise (s : string) : result Z :=
  match Py.int s with
  | Some n => Ok n
  | None => Raise (ValueError s)
  end.

Definition time_to_seconds (time_str : cell) : result (option Z) :=
  match time_str with
  | CNaN => Ok None
  | CNum _ => Raise AttributeError
  | CStr s =>
      if String.eqb s "00:00:00" then Ok None
      else
        match Py.split ":" s with
        | [h; m; sec] =>
            h' <- int_or_raise h ;; m' <- int_or_raise m ;; s' <- int_or_raise sec ;;
            Ok (Some (h' * 3600 + m' * 60 + s'))
        | [m; sec] =>
            m' <- int_or_raise m ;; s' <- int_or_raise sec ;;
            Ok (Some (m' * 60 + s'))
        | parts =>
            n <- int_or_raise (hd EmptyString parts) ;; Ok (Some n)
        end
  end.

(** ** The table *)

Inductive segment : Type := seg_Swim | seg_T1 | seg_Bike | seg_T2 | seg_Run.

Definition segments : list segment := [seg_Swim; seg_T1; seg_Bike; seg_T2; seg_Run].

Definition seg_name (seg : segment) : string :=
  match seg with
  | seg_Swim => "Swim"
  | seg_T1 => "T1"
  | seg_Bike => "Bike"
  | seg_T2 => "T2"
  | seg_Run => "Run"
  end.

(** One line of the file as [read_csv] returns it.  The tables modelled
    carry every column that [process_data] and [create_figure] name. *)
Record raw_row : Type := mk_raw {
  raw_First_Name : string;
  raw_Last_Name : string;
  raw_Position : option Z;
  raw_Swim : cell;
  raw_T1 : cell;
  raw_Bike : cell;
  raw_T2 : cell;
  raw_Run : cell;
  raw_Total_Time : cell
}.

(** One line of the table that [process_data] returns: the time columns in
    seconds and the five [_Cum] columns. *)
Record row : Type := mk_row {
  Athlete_First_Name : string;
  Athlete_Last_Name : string;
  Position : option Z;
  Swim : option Z;
  T1 : option Z;
  Bike : option Z;
  T2 : option Z;
  Run : option Z;
  Total_Time : option Z;
  Swim_Cum : option Z;
  T1_Cum : option Z;
  Bike_Cum : option Z;
  T2_Cum : option Z;
  Run_Cum : option Z
}.

Definition DataFrame : Type := list row.

(** [df[seg]] and [df[f'{seg}_Cum']], read in one row. *)
Definition duration (seg : segment) (r : row) : option Z :=
  match seg with
  | seg_Swim => Swim r
  | seg_T1 => T1 r
  | seg_Bike => Bike r
  | seg_T2 => T2 r
  | seg_Run => Run r
  end.

Definition cumulative (seg : segment) (r : row) : option Z :=
  match seg with
  | seg_Swim => Swim_Cum r
  | seg_T1 => T1_Cum r
  | seg_Bike => Bike_Cum r
  | seg_T2 => T2_Cum r
  | seg_Run => Run_Cum r
  end.

(** The segment before [seg] in [segments]. *)
Definition previous (seg : segment) : option segment :=
  match seg with
  | seg_Swim => None
  | seg_T1 => Some seg_Swim
  | seg_Bike => Some seg_T1
  | seg_T2 => Some seg_Bike
  | seg_Run => Some seg_T2
  end.

(** ** The exact range *)

(** An int64 column wraps at 2^63 and a float64 column holds every integer
    up to 2^53 only.  While the numbers of a table stay within
    [exact_bound] in absolute value, either kind of column holds them,
    their sums within the bound and their differences exactly. *)
Definition exact_bound : Z := 2 ^ 52.

Definition exact (z : Z) : bool := (- exact_bound <=? z) && (z <=? exact_bound).

Definition exact_value (v : option Z) : bool :=
  match v with
  | Some z => exact z
  | None => true
  end.

(** The six time values and the five cumulative values of a row. *)
Definition exact_row (r : row) : bool :=
  forallb exact_value
    [Swim r; T1 r; Bike r; T2 r; Run r; Total_Time r;
     Swim_Cum r; T1_Cum r; Bike_Cum r; T2_Cum r; Run_Cum r].

Definition exact_table (df : DataFrame) : Prop := forallb exact_row df = true.

(** What an int64 column holds for the integer [z]: [z] modulo 2^64, taken
    between -2^63 and 2^63. *)
Definition int64 (z : Z) : Z := (z + 2 ^ 63) mod 2 ^ 64 - 2 ^ 63.

(** What a float64 column holds for the integer [z] (of a magnitude far
    below the largest float): the nearest number with a significand of 53
    bits, the even one of two equally near. *)
Definition float64 (z : Z) : Z :=
  let a := Z.abs z in
  if a <=? 2 ^ 53 then z
  else
    let unit := 2 ^ (Z.log2 a - 52) in
    let q := a / unit in
    let r := a mod unit in
    let up := ((unit <? 2 * r) || ((unit =? 2 * r) && Z.odd q))%bool in
    Z.sgn z * (if up then q + 1 else q) * unit.

(** Element of [a + b] on two numeric columns: NaN when either side is.
    The sum is that of the columns when operands and result are within
    the exact range. *)
Definition nan_add (a b : option Z) : option Z :=
  match a, b with
  | Some x, Some y => Some (x + y)
  | _, _ => None
  end.

(** Element of [a - b]: NaN when either side is.  The difference is that
    of the columns when both operands are within the exact range. *)
Definition nan_sub (a b : option Z) : option Z :=
  match a, b with
  | Some x, Some y => Some (x - y)
  | _, _ => None
  end.

(** The converted time columns put back beside the untouched ones, and the
    cumulative columns of lines 42-44: [Swim_Cum] is [Swim], each later one
    is the one before it plus the segment's own column.  A column holds
    the converted value itself when that value is within the exact
    range. *)
Definition with_cumulative
    (r : raw_row) (swim t1 bike t2 run total : option Z) : row :=
  let swim_cum := swim in
  let t1_cum := nan_add swim_cum t1 in
  let bike_cum := nan_add t1_cum bike in
  let t2_cum := nan_add bike_cum t2 in
  let run_cum := nan_add t2_cum run in
  {| Athlete_First_Name := raw_First_Name r;
     Athlete_Last_Name := raw_Last_Name r;
     Position := raw_Position r;
     Swim := swim; T1 := t1; Bike := bike; T2 := t2; Run := run;
     Total_Time := total;
     Swim_Cum := swim_cum; T1_Cum := t1_cum; Bike_Cum := bike_cum;
     T2_Cum := t2_cum; Run_Cum := run_cum |}.

Definition assemble (raw : list raw_row)
    (swim t1 bike t2 run total : list (option Z)) : DataFrame :=
  map (fun '(r, (a, (b, (c, (d, (e, f)))))) => with_cumulative r a b c d e f)
      (combine raw (combine swim (combine t1 (combine bike
         (combine t2 (combine run total)))))).

(** What the guarded block of [process_data] leaves: the table, or the text
    of the exception caught there. *)
Inductive read_result : Type :=
| ReadOk (table : list raw_row)
| ReadFailed (message : string).

Definition unsupported_message : string :=
  "Unsupported file type. Please upload a CSV file.".

Section Reader.

(** [base64.b64decode(content_string)]; [None] is [binascii.Error]. *)
Variable b64decode : string -> option string.

(** [pd.read_csv(io.StringIO(decoded.decode('utf-8')))] on the decoded
    data. *)
Variable read_csv : string -> read_result.

(** Lines 25-26, which stand before the guarded block: [contents] is cut
    at its commas into exactly two parts and the second part is decoded.
    Any other number of parts, or a payload that [b64decode] refuses,
    raises. *)
Definition decoded_payload (contents : string) : result string :=
  match Py.split "," contents with
  | [content_type; content_string] =>
      match b64decode content_string with
      | Some decoded => Ok decoded
      | None => Raise binascii_Error
      end
  | _ => Raise UnpackError
  end.

(** The pair [(df, error_message)], or the exception that leaves the
    function.  Each time column is converted whole before the next one is
    touched. *)
Definition process_data (contents filename : string)
    : result (option DataFrame * option string) :=
  decoded <- decoded_payload contents ;;
  if Py.contains "csv" filename then
    match read_csv decoded with
    | ReadFailed e => Ok (None, Some e)
    | ReadOk raw =>
        swim <- apply time_to_seconds (map raw_Swim raw) ;;
        t1 <- apply time_to_seconds (map raw_T1 raw) ;;
        bike <- apply time_to_seconds (map raw_Bike raw) ;;
        t2 <- apply time_to_seconds (map raw_T2 raw) ;;
        run <- apply time_to_seconds (map raw_Run raw) ;;
        total <- apply time_to_seconds (map raw_Total_Time raw) ;;
        Ok (Some (assemble raw swim t1 bike t2 run total), None)
    end
  else Ok (None, Some unsupported_message).

End Reader.

(** ** [create_figure] *)

Inductive mode : Type := position | time_gap.

Definition x_values : list Q := [0; 0.5; 0.6; 2.0; 2.1; 3.0]%Q.

Definition x_labels : list string := "Start" :: map seg_name segments.

(** [u] sorts strictly before [v] when NaN is put at the bottom. *)
Definition sorts_before (u v : option Z) : bool :=
  match u, v with
  | Some a, Some b => a <? b
  | Some _, None => true
  | None, _ => false
  end.

(** Element of [col.rank(method='min', na_option='bottom')] for an entry
    whose value is [v]: one more than the number of entries that sort
    strictly before it.  Equal values share the rank, and so do the NaN. *)
Definition rank_min_bottom (col : list (option Z)) (v : option Z) : Z :=
  1 + Z.of_nat (length (filter (fun u => sorts_before u v) col)).

Definition nan_min (a b : option Z) : option Z :=
  match a, b with
  | Some x, Some y => Some (Z.min x y)
  | Some x, None => Some x
  | None, b' => b'
  end.

Definition nan_max (a b : option Z) : option Z :=
  match a, b with
  | Some x, Some y => Some (Z.max x y)
  | Some x, None => Some x
  | None, b' => b'
  end.

(** [col.min()] and [col.max()]: NaN is skipped, and is the answer when
    nothing else is there. *)
Definition column_min (col : list (option Z)) : option Z := fold_right nan_min None col.
Definition column_max (col : list (option Z)) : option Z := fold_right nan_max None col.

(** A row with the five columns that [create_figure] adds for its mode:
    [f'{seg}_Cum_Rank'] or [f'{seg}_Cum_Gap'], read by segment. *)
Record view_row : Type := mk_view {
  athlete : row;
  derived : segment -> option Z
}.

Definition add_rank_columns (df : DataFrame) : list view_row :=
  map (fun r =>
         {| athlete := r;
            derived := fun seg =>
              Some (rank_min_bottom (map (cumulative seg) df) (cumulative seg r)) |})
      df.

Definition add_gap_columns (df : DataFrame) : list view_row :=
  map (fun r =>
         {| athlete := r;
            derived := fun seg =>
              let leader_time := column_min (map (cumulative seg) df) in
              nan_sub (cumulative seg r) leader_time |})
      df.

(** [view[[...five columns...]].max().max()] *)
Definition max_over (view : list view_row) : option Z :=
  column_max (map (fun seg => column_max (map (fun v => derived v seg) view)) segments).

Definition position_le (a b : option Z) : bool :=
  match a, b with
  | Some x, Some y => x <=? y
  | _, None => true
  | None, Some _ => false
  end.

Fixpoint insert_by_position (v : view_row) (l : list view_row) : list view_row :=
  match l with
  | [] => [v]
  | u :: l' =>
      if position_le (Position (athlete v)) (Position (athlete u)) then v :: l
      else u :: insert_by_position v l'
  end.

(** [sort_values('Position', na_position='last')].  Rows with the same
    position keep the order of the file here; pandas leaves their order to
    the sorting routine. *)
Definition sort_values (view : list view_row) : list view_row :=
  fold_right insert_by_position [] view.

(** The inner loop of lines 254-262: one point per segment until the first
    NaN. *)
Fixpoint walk (value : segment -> option Z) (segs : list segment) (xs : list Q)
    : list Z * list Q :=
  match segs, xs with
  | seg :: segs', xj :: xs' =>
      match value seg with
      | None => ([], [])
      | Some v => let '(ys, axs) := walk value segs' xs' in (v :: ys, xj :: axs)
      end
  | _, _ => ([], [])
  end.

Record trace : Type := mk_trace {
  x : list Q;
  y : list Z;
  name : string;
  text : list string;
  color : string;
  opacity : Q
}.

Record layout : Type := mk_layout {
  title : string;
  yaxis_title : string;
  yaxis_reversed : bool;
  yaxis_range : option (option Z * Z)
}.

Record figure : Type := mk_figure {
  data : list trace;
  fig_layout : option layout
}.

(** [go.Figure()] *)
Definition empty_figure : figure := {| data := []; fig_layout := None |}.

Definition athlete_name (r : row) : string :=
  Athlete_First_Name r ++ " " ++ Athlete_Last_Name r.

Definition hover_text (name y_axis_title : string) (y_values : list Z) : list string :=
  map (fun '(seg, yv) =>
         name ++ "<br>Segment: " ++ seg ++ "<br>" ++ y_axis_title ++ ": " ++ Py.format_0f yv)
      (combine x_labels y_values).

(** [1 if hovered_athlete == name else 0.2 if hovered_athlete else 0.6]:
    [None] and the empty string are both false. *)
Definition opacity_of (hovered_athlete : option string) (name : string) : Q :=
  match hovered_athlete with
  | Some h =>
      if String.eqb h name then 1%Q
      else if String.eqb h EmptyString then 0.6%Q else 0.2%Q
  | None => 0.6%Q
  end.

Section Chart.

(** [px.colors.qualitative.Bold], a non-empty list of colours. *)
Variable color_palette : list string.

(** The body of the loop over [enumerate(df.iterrows())].  [max_rank] is a
    number whenever a row is visited (the table is then not empty); [0]
    stands for it on the empty table, where it is never read. *)
Definition athlete_trace (calculation_mode : mode) (max_rank : option Z)
    (y_axis_title : string) (hovered_athlete : option string)
    (i : nat) (v : view_row) : trace :=
  let name := athlete_name (athlete v) in
  let '(ys, axs) := walk (derived v) segments (tl x_values) in
  let y_values := 0 :: ys in
  let athlete_x_values := hd 0%Q x_values :: axs in
  let '(y_values, athlete_x_values) :=
    match calculation_mode with
    | position =>
        if (length y_values <? length segments + 1)%nat
        then ((y_values ++ [match max_rank with Some m => m | None => 0 end])%list,
              (athlete_x_values ++ [last athlete_x_values 0%Q])%list)
        else (y_values, athlete_x_values)
    | time_gap => (y_values, athlete_x_values)
    end in
  {| x := athlete_x_values;
     y := y_values;
     name := name;
     text := hover_text name y_axis_title y_values;
     color := nth (i mod length color_palette) color_palette EmptyString;
     opacity := opacity_of hovered_athlete name |}.

Fixpoint traces_from (calculation_mode : mode) (max_rank : option Z)
    (y_axis_title : string) (hovered_athlete : option string)
    (i : nat) (view : list view_row) : list trace :=
  match view with
  | [] => []
  | v :: view' =>
      athlete_trace calculation_mode max_rank y_axis_title hovered_athlete i v
      :: traces_from calculation_mode max_rank y_axis_title hovered_athlete (S i) view'
  end.

Definition create_figure (df : DataFrame) (calculation_mode : mode)
    (filename : string) (hovered_athlete : option string) : figure :=
  let '(view, max_rank, max_gap, y_axis_title) :=
    match calculation_mode with
    | position =>
        let view := add_rank_columns df in
        (view, max_over view, None, "Rank")
    | time_gap =>
        let view := add_gap_columns df in
        let max_gap := max_over view in
        (filter (fun v => match Run_Cum (athlete v) with Some _ => true | None => false end)
                view,
         None, max_gap, "Time Gap to Leader (seconds)")
    end in
  let view := sort_values view in
  {| data := traces_from calculation_mode max_rank y_axis_title hovered_athlete 0 view;
     fig_layout :=
       Some {| title := "Visualizing: " ++ filename;
               yaxis_title := y_axis_title;
               yaxis_reversed := match calculation_mode with
                                 | position => true
                                 | time_gap => false
                                 end;
               yaxis_range := match calculation_mode with
                              | position => None
                              | time_gap => Some (max_gap, 0)
                              end |} |}.

(** ** [update_graph] *)

(** The component named by [ctx.triggered[0]['prop_id']]; [no_component]
    is the first call, which nothing triggered. *)
Inductive component : Type :=
| visualize_button
| calculation_mode_radio
| race_plot
| no_component.

Inductive style : Type := display_none | display_block.

Variable b64decode : string -> option string.
Variable read_csv : string -> read_result.

(** [hoverData] is reduced to the text of its first point.  A table that is
    [None] makes [create_figure] raise at its first column access. *)
Definition update_graph (triggered_id : component) (calculation_mode : option mode)
    (hoverData : option string) (contents : option string) (filename : string)
    : result (figure * style) :=
  match contents, calculation_mode with
  | Some c, Some m =>
      returned <- process_data b64decode read_csv c filename ;;
      let '(df, error_message) := returned in
      let failed := match error_message with
                    | Some e => negb (String.eqb e EmptyString)
                    | None => false
                    end in
      if failed then Ok (empty_figure, display_none)
      else
        let call hovered :=
          match df with
          | Some d => Ok (create_figure d m filename hovered, display_block)
          | None => Raise TypeError
          end in
        match triggered_id, hoverData with
        | visualize_button, _ => call None
        | race_plot, Some point_text => call (Some (Py.before "<br>" point_text))
        | _, _ => Ok (empty_figure, display_none)
        end
  | _, _ => Ok (empty_figure, display_none)
  end.

End Chart.

(** ** Vocabulary of the statements *)

(** The parts of a text that [time_to_seconds] hands to [int]: all of them
    when there are two or three, the first one otherwise. *)
Definition converted_parts (s : string) : list string :=
  match Py.split ":" s with
  | [h; m; sec] => [h; m; sec]
  | [m; sec] => [m; sec]
  | parts => [hd EmptyString parts]
  end.

Definition is_digit (c : ascii) : bool :=
  match Py.digit_val c with
  | Some _ => true
  | None => false
  end.

Fixpoint all_digits (s : string) : bool :=
  match s with
  | EmptyString => true
  | String c t => is_digit c && all_digits t
  end.

(** A non-empty run of the digits 0 to 9, of at most [Py.max_str_digits]
    digits. *)
Definition digit_string (s : string) : Prop :=
  s <> EmptyString /\ all_digits s = true
  /\ (String.length s <= Py.max_str_digits)%nat.

(** The digit 1, [n] times. *)
Fixpoint ones (n : nat) : string :=
  match n with
  | O => EmptyString
  | S n' => String "1" (ones n')
  end.

(** The documented formats: one, two or three colon-separated digit
    strings. *)
Definition accepted_format (s : string) : Prop :=
  (1 <= length (Py.split ":" s) <= 3)%nat /\ Forall digit_string (Py.split ":" s).

(** The failure condition as the documentation words it: a non-empty text
    other than 00:00:00 with a part that is no number, or with a number of
    parts other than 1, 2 or 3. *)
Definition documented_malformed (s : string) : Prop :=
  s <> EmptyString /\ s <> "00:00:00" /\
  (Exists (fun p => Py.int p = None) (Py.split ":" s)
   \/ ~ (1 <= length (Py.split ":" s) <= 3)%nat).

Definition seg_index (seg : segment) : nat :=
  match seg with
  | seg_Swim => 0
  | seg_T1 => 1
  | seg_Bike => 2
  | seg_T2 => 3
  | seg_Run => 4
  end.

(** The relation that lines 42-44 set up between the columns of a row. *)
Definition cumulative_built (r : row) : Prop :=
  cumulative seg_Swim r = duration seg_Swim r /\
  forall seg p, previous seg = Some p ->
    cumulative seg r = nan_add (cumulative p r) (duration seg r).

(** Dense ranking as the documentation words it: the rank of a value is one
    more than the number of distinct values that sort strictly before it. *)
Fixpoint distinct (l : list (option Z)) : list (option Z) :=
  match l with
  | [] => []
  | a :: l' =>
      if existsb (fun b => match a, b with
                           | Some m, Some n => m =? n
                           | None, None => true
                           | _, _ => false
                           end) l'
      then distinct l' else a :: distinct l'
  end.

Definition documented_dense_rank (col : list (option Z)) (v : option Z) : Z :=
  1 + Z.of_nat (length (distinct (filter (fun u => sorts_before u v) col))).

(** An entry of a column that holds the value [a]. *)
Definition holds (a : Z) (u : option Z) : bool :=
  match u with
  | Some c => c =? a
  | None => false
  end.

Definition present (u : option Z) : bool :=
  match u with
  | Some _ => true
  | None => false
  end.

(** The file-type test as the documentation words it: the name ends in
    the extension [.csv]. *)
Fixpoint ends_with (suffix s : string) : bool :=
  (String.eqb suffix s
   || match s with
      | EmptyString => false
      | String _ t => ends_with suffix t
      end)%bool.

Definition documented_csv_extension (filename : string) : bool :=
  ends_with ".csv" filename.

(** The gap of a row in a column, as line 239 computes it. *)
Definition gap (df : DataFrame) (seg : segment) (r : row) : option Z :=
  nan_sub (cumulative seg r) (column_min (map (cumulative seg) df)).

(** What of a trace does not depend on the highlight. *)
Definition line_of (t : trace)
    : list Q * list Z * string * list string * string :=
  (x t, y t, name t, text t, color t).

(** ** Example tables *)

Definition line (first last : string) (pos : option Z)
    (swim t1 bike t2 run total : string) : raw_row :=
  mk_raw first last pos (CStr swim) (CStr t1) (CStr bike) (CStr t2) (CStr run) (CStr total).

(** Ann is fastest overall, Bob follows, Cy has no bike time. *)
Definition ann : raw_row :=
  line "Ann" "Ames" (Some 1) "00:10:00" "01:00" "00:30:00" "00:50" "00:20:00" "01:01:50".
Definition bob : raw_row :=
  line "Bob" "Birk" (Some 2) "00:11:00" "01:10" "00:32:00" "00:55" "00:22:00" "01:07:05".
Definition cy : raw_row :=
  mk_raw "Cy" "Cole" None (CStr "00:09:00") (CStr "01:05") CNaN CNaN CNaN CNaN.

Definition three_rows (_ : string) : read_result := ReadOk [ann; bob; cy].

(** [base64.b64decode] at the payloads of the examples: the empty payload
    is empty data, and a single data character is refused. *)
Definition example_b64decode (payload : string) : option string :=
  if String.eqb payload EmptyString then Some EmptyString else None.

(** Two athletes level after the swim (100 seconds each) and a third
    behind them (150 seconds). *)
Definition tied_rows (_ : string) : read_result :=
  ReadOk [line "Dee" "Dunn" (Some 1) "01:40" "00:10" "00:20" "00:10" "00:20" "02:40";
          line "Eve" "East" (Some 2) "01:40" "00:20" "00:20" "00:10" "00:20" "02:50";
          line "Fay" "Ford" (Some 3) "02:30" "00:10" "00:20" "00:10" "00:20" "03:30"].

(** A swim time that is no number. *)
Definition bad_swim (_ : string) : read_result :=
  ReadOk [line "Gus" "Gray" (Some 1) "abc" "01:00" "30:00" "00:50" "20:00" "1:00:00"].

Definition unreadable (_ : string) : read_result :=
  ReadFailed "No columns to parse from file".

Definition two_colours : list string := ["rgb(127, 60, 141)"; "rgb(17, 165, 121)"].

Definition table_of (read_csv : string -> read_result) : DataFrame :=
  match process_data example_b64decode read_csv "data:text/csv;base64," "race.csv" with
  | Ok (Some df, _) => df
  | _ => []
  end.

(** ** [update_button_state_and_message] *)

(** The pair (disabled, message) that drives the Visualize button. *)
Definition update_button_state_and_message (contents : option string) (filename : string)
    : bool * string :=
  match contents with
  | None => (true, "No file uploaded yet.")
  | Some _ =>
      (false,
       "File '" ++ filename
       ++ "' uploaded successfully. Select a calculation mode and click 'Visualize' to process and display the data.")
  end.

(** ** Further vocabulary *)

(** The six cells of a line that [process_data] converts. *)
Definition time_cells (l : raw_row) : list cell :=
  [raw_Swim l; raw_T1 l; raw_Bike l; raw_T2 l; raw_Run l; raw_Total_Time l].

(** A row of the returned table carries the names and position of a line
    and the converted value of each of its six time cells. *)
Definition converted_from (l : raw_row) (r : row) : Prop :=
  Athlete_First_Name r = raw_First_Name l
  /\ Athlete_Last_Name r = raw_Last_Name l
  /\ Position r = raw_Position l
  /\ map time_to_seconds (time_cells l)
     = map Ok [Swim r; T1 r; Bike r; T2 r; Run r; Total_Time r].

Definition is_number (c : cell) : bool :=
  match c with
  | CNum _ => true
  | _ => false
  end.

Definition is_text (c : cell) : bool :=
  match c with
  | CStr _ => true
  | _ => false
  end.

Definition seconds_sum (ds : list Z) : Z := fold_right Z.add 0 ds.

(** The segments up to and including [seg]. *)
Definition up_to (seg : segment) : list segment := firstn (S (seg_index seg)) segments.

(** Draw order: positions ascending, rows without a position last. *)
Definition by_position (u v : view_row) : Prop :=
  position_le (Position (athlete u)) (Position (athlete v)) = true.

Definition rows_by_position (a b : row) : Prop :=
  position_le (Position a) (Position b) = true.

(** The athletes that a mode draws: all of them in the rank view, those
    with a cumulative Run value in the gap view. *)
Definition drawn (calculation_mode : mode) (df : DataFrame) : DataFrame :=
  match calculation_mode with
  | position => df
  | time_gap => filter (fun r => present (Run_Cum r)) df
  end.

(** The columns of a row that [create_figure] reads. *)
Definition chart_key (r : row)
    : string * string * option Z * list (option Z) :=
  (Athlete_First_Name r, Athlete_Last_Name r, Position r,
   map (fun seg => cumulative seg r) segments).

(** Two rows of a view that agree on what [create_figure] reads. *)
Definition same_line (v w : view_row) : Prop :=
  chart_key (athlete v) = chart_key (athlete w)
  /\ forall seg, derived v seg = derived w seg.

(** Does the figure ask the chart area to be visible, and for whom. *)
Definition requested_highlight (triggered_id : component) (hoverData : option string)
    : option (option string) :=
  match triggered_id, hoverData with
  | visualize_button, _ => Some None
  | race_plot, Some point_text => Some (Some (Py.before "<br>" point_text))
  | _, _ => None
  end.

(** * Properties *)

(** ** The error monad and [apply] *)

Lemma bind_ok {A B} (m : result A) (k : A -> result B) (b : B) :
  bind m k = Ok b -> exists a, m = Ok a /\ k a = Ok b.
Proof.
  destruct m as [a | e]; simpl; intro H; [exists a; split; [reflexivity | exact H] | discriminate].
Qed.

Lemma apply_length {A B} (f : A -> result B) (l : list A) (l' : list B) :
  apply f l = Ok l' -> length l' = length l.
Proof.
  revert l'; induction l as [| a l IH]; simpl; intros l' H.
  - injection H as <-. reflexivity.
  - apply bind_ok in H as (b & _ & H).
    apply bind_ok in H as (bs & Hbs & H).
    injection H as <-. simpl. f_equal. apply IH, Hbs.
Qed.

(** ** Splitting and converting *)

Lemma split_not_nil (sep : ascii) (s : string) : Py.split sep s <> [].
Proof.
  destruct s as [| c t]; simpl; [discriminate |].
  destruct (Ascii.eqb c sep); [discriminate |].
  destruct (Py.split sep t); discriminate.
Qed.

Lemma digit_val_range (c : ascii) (d : Z) : Py.digit_val c = Some d -> 0 <= d <= 9.
Proof.
  unfold Py.digit_val.
  destruct ((48 <=? Z.of_nat (nat_of_ascii c)) && (Z.of_nat (nat_of_ascii c) <=? 57))%bool eqn:E;
    [| discriminate].
  intro H; injection H as <-.
  apply andb_prop in E as [E1 E2].
  apply Z.leb_le in E1. apply Z.leb_le in E2. lia.
Qed.

Lemma digit_is_plain (c : ascii) :
  is_digit c = true ->
  Py.is_space c = false /\ c <> "+"%char /\ c <> "-"%char.
Proof.
  destruct c as [[] [] [] [] [] [] [] []]; vm_compute; intro H;
    try discriminate H; repeat split; discriminate.
Qed.

Lemma more_digits_all (t : string) :
  all_digits t = true ->
  forall acc, 0 <= acc ->
  exists n, Py.more_digits acc t = Some (n, EmptyString) /\ 0 <= n.
Proof.
  induction t as [| c t IH]; simpl; intros Hall acc Hacc.
  - exists acc. split; [reflexivity | exact Hacc].
  - apply andb_prop in Hall as [Hc Ht].
    unfold is_digit in Hc.
    destruct (Py.digit_val c) as [d |] eqn:Ed; [| discriminate].
    apply digit_val_range in Ed.
    apply IH; [exact Ht | lia].
Qed.

Lemma digit_string_check (s : string) :
  (negb (String.eqb s EmptyString) && all_digits s
   && (String.length s <=? Py.max_str_digits)%nat)%bool = true ->
  digit_string s.
Proof.
  intro H. apply andb_prop in H as [H Hlen]. apply andb_prop in H as [Hne Hall].
  split; [| split; [exact Hall | apply Nat.leb_le, Hlen]].
  intros ->. discriminate Hne.
Qed.

Lemma digit_count_all (s : string) :
  all_digits s = true -> Py.digit_count s = String.length s.
Proof.
  induction s as [| c t IH]; simpl; [reflexivity |].
  intro H. apply andb_prop in H as [Hc Ht]. unfold is_digit in Hc.
  destruct (Py.digit_val c); [rewrite (IH Ht); reflexivity | discriminate].
Qed.

Lemma int_under_cap (s : string) :
  (Py.digit_count s <= Py.max_str_digits)%nat -> Py.int s = Py.int_literal s.
Proof.
  intro H. unfold Py.int. apply Nat.leb_le in H. rewrite H. reflexivity.
Qed.

Lemma int_literal_digits (c : ascii) (t : string) :
  is_digit c = true -> all_digits t = true ->
  exists n, 0 <= n
            /\ Py.int_literal (String c t) = Some n
            /\ Py.int_literal (String "-" (String c t)) = Some (- n)
            /\ Py.int_literal (String "+" (String c t)) = Some n.
Proof.
  intros Hc Ht.
  destruct (digit_is_plain c Hc) as (Hsp & Hplus & Hminus).
  unfold is_digit in Hc.
  destruct (Py.digit_val c) as [d |] eqn:Ed; [| discriminate].
  destruct (more_digits_all t Ht d) as (n & Hn & Hpos);
    [apply digit_val_range in Ed; lia |].
  exists n. split; [exact Hpos |].
  assert (Hsign : match String c t with
                  | String "+" t0 => (false, t0)
                  | String "-" t0 => (true, t0)
                  | _ => (false, String c t)
                  end = (false, String c t)).
  { destruct c as [[] [] [] [] [] [] [] []]; try reflexivity;
      [contradiction Hplus | contradiction Hminus]; reflexivity. }
  split; [| split].
  - unfold Py.int_literal. simpl. rewrite Hsp, Hsign, Ed, Hn. reflexivity.
  - unfold Py.int_literal. simpl. rewrite Ed, Hn. reflexivity.
  - unfold Py.int_literal. simpl. rewrite Ed, Hn. reflexivity.
Qed.

Lemma int_digit_string (s : string) :
  digit_string s -> exists n, Py.int s = Some n /\ 0 <= n.
Proof.
  intros (Hne & Hall & Hlen).
  destruct s as [| c t]; [contradiction Hne; reflexivity |].
  pose proof (digit_count_all _ Hall) as Hcount.
  simpl in Hall. apply andb_prop in Hall as [Hc Ht].
  destruct (int_literal_digits c t Hc Ht) as (n & Hpos & Hn & _).
  exists n. split; [| exact Hpos].
  rewrite int_under_cap; [exact Hn | rewrite Hcount; exact Hlen].
Qed.

Example int_accepts :
  Py.int "45" = Some 45 /\ Py.int " 007 " = Some 7 /\ Py.int "-5" = Some (-5)
  /\ Py.int "+1_000" = Some 1000.
Proof. repeat split. Qed.

Example int_rejects :
  Py.int "" = None /\ Py.int "abc" = None /\ Py.int "1 2" = None
  /\ Py.int "1__0" = None /\ Py.int "_1" = None /\ Py.int "+ 1" = None
  /\ Py.int "1.5" = None.
Proof. repeat split. Qed.

Example int_digit_cap :
  Py.int (ones 4300) = Py.int_literal (ones 4300)
  /\ Py.int (ones 4301) = None
  /\ time_to_seconds (CStr (ones 4301)) = Raise (ValueError (ones 4301)).
Proof.
  split; [| split].
  - apply int_under_cap, Nat.leb_le. vm_compute. reflexivity.
  - vm_compute. reflexivity.
  - vm_compute. reflexivity.
Qed.

Example upload_not_decoded :
  decoded_payload example_b64decode "race.csv" = Raise UnpackError
  /\ decoded_payload example_b64decode "data:text/csv;base64,A" = Raise binascii_Error
  /\ process_data example_b64decode three_rows "data:text/csv;base64,A" "notes.txt"
     = Raise binascii_Error.
Proof. repeat split. Qed.

Example split_parts :
  Py.split ":" "01:02:03" = ["01"; "02"; "03"] /\ Py.split ":" "" = [""]
  /\ Py.split ":" "5:" = ["5"; ""].
Proof. repeat split. Qed.

Lemma int_or_raise_ok (s : string) (n : Z) : Py.int s = Some n -> int_or_raise s = Ok n.
Proof. unfold int_or_raise. intros ->. reflexivity. Qed.

Lemma int_or_raise_cases (s : string) :
  (exists n, Py.int s = Some n /\ int_or_raise s = Ok n)
  \/ (Py.int s = None /\ int_or_raise s = Raise (ValueError s)).
Proof.
  unfold int_or_raise. destruct (Py.int s) as [n |]; [left; exists n | right]; auto.
Qed.

(** ** The exact range *)

Lemma exact_range (z : Z) : exact z = true <-> - 2 ^ 52 <= z <= 2 ^ 52.
Proof.
  unfold exact, exact_bound. rewrite andb_true_iff, !Z.leb_le. reflexivity.
Qed.

(** Beyond the exact range the columns part from the integers: an int64
    column wraps and a float64 column rounds. *)
Example columns_beyond_range :
  int64 (9223372036854775807 + 1) = - 9223372036854775808
  /\ float64 9007199254740993 = 9007199254740992
  /\ int64 (100 - 9223372036854775807 - 200) = 9223372036854775709.
Proof. vm_compute. repeat split. Qed.

(** Within it both kinds of column hold a number, a sum within the range
    and any difference as they are. *)
Lemma columns_exact (x y : Z) :
  exact x = true -> exact y = true ->
  int64 x = x /\ float64 x = x
  /\ int64 (x - y) = x - y /\ float64 (x - y) = x - y
  /\ (exact (x + y) = true -> int64 (x + y) = x + y /\ float64 (x + y) = x + y).
Proof.
  intros Hx Hy. apply exact_range in Hx. apply exact_range in Hy.
  assert (P52 : 2 ^ 53 = 2 * 2 ^ 52) by reflexivity.
  assert (P63 : 2 ^ 63 = 2048 * 2 ^ 52) by reflexivity.
  assert (P64 : 2 ^ 64 = 4096 * 2 ^ 52) by reflexivity.
  assert (Hpos : 0 < 2 ^ 52) by reflexivity.
  assert (I : forall z, - 2 ^ 53 <= z <= 2 ^ 53 -> int64 z = z).
  { intros z Hz. unfold int64. rewrite Z.mod_small; lia. }
  assert (F : forall z, - 2 ^ 53 <= z <= 2 ^ 53 -> float64 z = z).
  { intros z Hz. unfold float64. cbv zeta.
    assert (E : (Z.abs z <=? 2 ^ 53) = true) by (apply Z.leb_le; lia).
    rewrite E. reflexivity. }
  split; [apply I; lia |]. split; [apply F; lia |].
  split; [apply I; lia |]. split; [apply F; lia |].
  intro Hs. apply exact_range in Hs. split; [apply I | apply F]; lia.
Qed.

(** ** [time_to_seconds] *)

Lemma eqb_zero_time (s : string) :
  s <> "00:00:00" -> String.eqb s "00:00:00" = false.
Proof. intro H. apply String.eqb_neq, H. Qed.

Lemma time_to_seconds_text (s : string) :
  s <> "00:00:00" ->
  time_to_seconds (CStr s) =
  match Py.split ":" s with
  | [h; m; sec] =>
      h' <- int_or_raise h ;; m' <- int_or_raise m ;; s' <- int_or_raise sec ;;
      Ok (Some (h' * 3600 + m' * 60 + s'))
  | [m; sec] =>
      m' <- int_or_raise m ;; s' <- int_or_raise sec ;; Ok (Some (m' * 60 + s'))
  | parts => n <- int_or_raise (hd EmptyString parts) ;; Ok (Some n)
  end.
Proof. intro H. unfold time_to_seconds. rewrite (eqb_zero_time s H). reflexivity. Qed.

(** C1, the input on which the claim fails: the empty text is one empty
    part, which [int] refuses, so the call raises instead of returning
    "no data". *)
Lemma empty_text_raises :
  time_to_seconds (CStr "") = Raise (ValueError "")
  /\ time_to_seconds (CStr "") <> Ok None.
Proof. split; [reflexivity | discriminate]. Qed.

(** C1 (amended): a text of three parts gives hours*3600 + minutes*60 +
    seconds, one of two parts minutes*60 + seconds, one of a single part
    its integer value; "01:02:03", "02:03" and "45" give 3723, 123 and 45;
    the text "00:00:00" and a missing value (NaN, what an empty field of
    the file is read as) give "no data" and not zero. *)
Theorem time_to_seconds_rules :
  (forall s h m sec a b c,
      s <> "00:00:00" -> Py.split ":" s = [h; m; sec] ->
      Py.int h = Some a -> Py.int m = Some b -> Py.int sec = Some c ->
      time_to_seconds (CStr s) = Ok (Some (a * 3600 + b * 60 + c)))
  /\ (forall s m sec b c,
      Py.split ":" s = [m; sec] ->
      Py.int m = Some b -> Py.int sec = Some c ->
      time_to_seconds (CStr s) = Ok (Some (b * 60 + c)))
  /\ (forall s p n,
      Py.split ":" s = [p] -> Py.int p = Some n ->
      time_to_seconds (CStr s) = Ok (Some n))
  /\ time_to_seconds (CStr "01:02:03") = Ok (Some 3723)
  /\ time_to_seconds (CStr "02:03") = Ok (Some 123)
  /\ time_to_seconds (CStr "45") = Ok (Some 45)
  /\ time_to_seconds (CStr "00:00:00") = Ok None
  /\ time_to_seconds CNaN = Ok None.
Proof.
  repeat split; try reflexivity.
  - intros s h m sec a b c Hs Hsplit Ha Hb Hc.
    rewrite (time_to_seconds_text s Hs), Hsplit.
    rewrite (int_or_raise_ok h a Ha), (int_or_raise_ok m b Hb), (int_or_raise_ok sec c Hc).
    reflexivity.
  - intros s m sec b c Hsplit Hb Hc.
    assert (Hs : s <> "00:00:00") by (intros ->; discriminate Hsplit).
    rewrite (time_to_seconds_text s Hs), Hsplit.
    rewrite (int_or_raise_ok m b Hb), (int_or_raise_ok sec c Hc).
    reflexivity.
  - intros s p n Hsplit Hn.
    assert (Hs : s <> "00:00:00") by (intros ->; discriminate Hsplit).
    rewrite (time_to_seconds_text s Hs), Hsplit. simpl.
    rewrite (int_or_raise_ok p n Hn). reflexivity.
Qed.

Lemma time_to_seconds_rules_witness :
  "1:02:03" <> "00:00:00"
  /\ Py.split ":" "1:02:03" = ["1"; "02"; "03"]
  /\ time_to_seconds (CStr "1:02:03") = Ok (Some (1 * 3600 + 2 * 60 + 3)).
Proof.
  split; [discriminate |]. split; [reflexivity |].
  apply (proj1 time_to_seconds_rules "1:02:03" "1" "02" "03" 1 2 3);
    [discriminate | reflexivity | reflexivity | reflexivity | reflexivity].
Defined.

(** C7, the input on which the claim fails: four parts, which the
    documented rule rejects, are accepted and the first part is the
    answer. *)
Lemma four_parts_accepted :
  documented_malformed "1:2:3:4"
  /\ time_to_seconds (CStr "1:2:3:4") = Ok (Some 1)
  /\ ~ raises (time_to_seconds (CStr "1:2:3:4")).
Proof.
  split; [| split].
  - split; [discriminate |]. split; [discriminate |].
    right. simpl. lia.
  - reflexivity.
  - intros [e He]. discriminate He.
Qed.

Lemma raises_bind_ok {A B} (m : result A) (k : A -> result B) (a : A) :
  m = Ok a -> (raises (bind m k) <-> raises (k a)).
Proof. intros ->. reflexivity. Qed.

Lemma raises_int_or_raise (s : string) : raises (int_or_raise s) <-> Py.int s = None.
Proof.
  unfold int_or_raise, raises.
  destruct (Py.int s) as [n |]; split.
  - intros [e He]; discriminate He.
  - discriminate.
  - reflexivity.
  - intros _. eexists; reflexivity.
Qed.

Lemma raises_convert1 (p : string) (k : Z -> option Z) :
  raises (n <- int_or_raise p ;; Ok (k n)) <-> Exists (fun q => Py.int q = None) [p].
Proof.
  unfold int_or_raise.
  destruct (Py.int p) as [n |] eqn:E; simpl; split.
  - intros [e He]; discriminate He.
  - intro H. inversion H as [? ? H1 | ? ? H1]; subst; [congruence | inversion H1].
  - intros _. constructor. exact E.
  - intros _. eexists; reflexivity.
Qed.

Lemma raises_convert2 (p q : string) (k : Z -> Z -> option Z) :
  raises (a <- int_or_raise p ;; b <- int_or_raise q ;; Ok (k a b))
  <-> Exists (fun r => Py.int r = None) [p; q].
Proof.
  unfold int_or_raise at 1.
  destruct (Py.int p) as [n |] eqn:E; simpl.
  - rewrite (raises_convert1 q (k n)). split.
    + intro H. apply Exists_cons_tl, H.
    + intro H. inversion H as [? ? H1 | ? ? H1]; subst; [congruence | exact H1].
  - split.
    + intros _. constructor. exact E.
    + intros _. eexists; reflexivity.
Qed.

Lemma raises_convert3 (p q r : string) (k : Z -> Z -> Z -> option Z) :
  raises (a <- int_or_raise p ;; b <- int_or_raise q ;; c <- int_or_raise r ;; Ok (k a b c))
  <-> Exists (fun u => Py.int u = None) [p; q; r].
Proof.
  unfold int_or_raise at 1.
  destruct (Py.int p) as [n |] eqn:E; simpl.
  - rewrite (raises_convert2 q r (k n)). split.
    + intro H. apply Exists_cons_tl, H.
    + intro H. inversion H as [? ? H1 | ? ? H1]; subst; [congruence | exact H1].
  - split.
    + intros _. constructor. exact E.
    + intros _. eexists; reflexivity.
Qed.

Lemma raises_characterised (s : string) :
  raises (time_to_seconds (CStr s))
  <-> s <> "00:00:00" /\ Exists (fun p => Py.int p = None) (converted_parts s).
Proof.
  destruct (String.eqb_spec s "00:00:00") as [-> | Hs].
  - split; [intros [e He]; discriminate He | intros [H _]; contradiction H; reflexivity].
  - rewrite (time_to_seconds_text s Hs). unfold converted_parts.
    destruct (Py.split ":" s) as [| p1 [| p2 [| p3 [| p4 rest]]]]; simpl hd.
    + rewrite (raises_convert1 EmptyString Some). tauto.
    + rewrite (raises_convert1 p1 Some). tauto.
    + rewrite (raises_convert2 p1 p2 (fun a b => Some (a * 60 + b))). tauto.
    + rewrite (raises_convert3 p1 p2 p3 (fun a b c => Some (a * 3600 + b * 60 + c))). tauto.
    + rewrite (raises_convert1 p1 Some). tauto.
Qed.

Lemma accepted_returns (s : string) :
  accepted_format s ->
  exists v, time_to_seconds (CStr s) = Ok v
            /\ (v = None <-> s = "00:00:00")
            /\ (forall n, v = Some n -> 0 <= n).
Proof.
  intros [Hlen Hall].
  destruct (String.eqb_spec s "00:00:00") as [-> | Hs].
  - exists None. split; [reflexivity |]. split; [tauto | discriminate].
  - rewrite (time_to_seconds_text s Hs).
    destruct (Py.split ":" s) as [| p1 [| p2 [| p3 [| p4 rest]]]]; simpl in Hlen; try lia.
    + inversion_clear Hall as [| ? ? H1 _].
      destruct (int_digit_string p1 H1) as (a & Ha & Hpa).
      simpl hd. rewrite (int_or_raise_ok p1 a Ha). simpl.
      exists (Some a). split; [reflexivity |].
      split; [split; [discriminate | contradiction] |].
      intros n Hn; injection Hn as <-; exact Hpa.
    + inversion_clear Hall as [| ? ? H1 Hall'].
      inversion_clear Hall' as [| ? ? H2 _].
      destruct (int_digit_string p1 H1) as (a & Ha & Hpa).
      destruct (int_digit_string p2 H2) as (b & Hb & Hpb).
      rewrite (int_or_raise_ok p1 a Ha), (int_or_raise_ok p2 b Hb). simpl.
      exists (Some (a * 60 + b)). split; [reflexivity |].
      split; [split; [discriminate | contradiction] |].
      intros n Hn; injection Hn as <-; lia.
    + inversion_clear Hall as [| ? ? H1 Hall'].
      inversion_clear Hall' as [| ? ? H2 Hall''].
      inversion_clear Hall'' as [| ? ? H3 _].
      destruct (int_digit_string p1 H1) as (a & Ha & Hpa).
      destruct (int_digit_string p2 H2) as (b & Hb & Hpb).
      destruct (int_digit_string p3 H3) as (c & Hc & Hpc).
      rewrite (int_or_raise_ok p1 a Ha), (int_or_raise_ok p2 b Hb), (int_or_raise_ok p3 c Hc).
      simpl.
      exists (Some (a * 3600 + b * 60 + c)). split; [reflexivity |].
      split; [split; [discriminate | contradiction] |].
      intros n Hn; injection Hn as <-; lia.
Qed.

(** C7 (amended): on a text, [time_to_seconds] raises exactly when the
    text is not "00:00:00" and one of the parts it converts is no integer
    literal; it converts every part of a text of two or three parts and
    only the first part otherwise, so a text of four or more parts is
    judged on its first part alone and the empty text raises.  Every text
    in a documented format (one to three colon-separated runs of digits,
    none longer than the 4300 digits that [int] accepts) returns: "no
    data" for "00:00:00", a non-negative number of seconds otherwise. *)
Theorem time_to_seconds_raises_iff :
  (forall s,
      raises (time_to_seconds (CStr s))
      <-> s <> "00:00:00" /\ Exists (fun p => Py.int p = None) (converted_parts s))
  /\ (forall s,
      (length (Py.split ":" s) = 2 \/ length (Py.split ":" s) = 3)%nat ->
      converted_parts s = Py.split ":" s)
  /\ (forall s,
      (length (Py.split ":" s) <> 2 /\ length (Py.split ":" s) <> 3)%nat ->
      converted_parts s = [hd EmptyString (Py.split ":" s)])
  /\ (forall s,
      accepted_format s ->
      exists v, time_to_seconds (CStr s) = Ok v
                /\ (v = None <-> s = "00:00:00")
                /\ (forall n, v = Some n -> 0 <= n)).
Proof.
  split; [exact raises_characterised |].
  split; [| split; [| exact accepted_returns]].
  - intros s H. unfold converted_parts.
    destruct (Py.split ":" s) as [| p1 [| p2 [| p3 [| p4 rest]]]]; simpl in H;
      try reflexivity; destruct H; discriminate.
  - intros s [H2 H3]. unfold converted_parts.
    destruct (Py.split ":" s) as [| p1 [| p2 [| p3 [| p4 rest]]]]; simpl in H2, H3;
      try reflexivity; congruence.
Qed.

Lemma time_to_seconds_raises_iff_witness :
  accepted_format "1:02:03"
  /\ exists v, time_to_seconds (CStr "1:02:03") = Ok v
               /\ (v = None <-> "1:02:03" = "00:00:00")
               /\ (forall n, v = Some n -> 0 <= n).
Proof.
  assert (H : accepted_format "1:02:03").
  { split; [simpl; lia |].
    repeat (apply Forall_cons; [apply digit_string_check; reflexivity |]).
    apply Forall_nil. }
  split; [exact H |].
  exact (proj2 (proj2 (proj2 time_to_seconds_raises_iff)) "1:02:03" H).
Defined.

(** ** [process_data] *)

Lemma apply_pointwise {A B C} (f : B -> result C) (g : A -> B) (l : list A) (l' : list C) :
  apply f (map g l) = Ok l' -> Forall2 (fun a c => f (g a) = Ok c) l l'.
Proof.
  revert l'; induction l as [| a l IH]; simpl; intros l' H.
  - injection H as <-. constructor.
  - apply bind_ok in H as (b & Hb & H).
    apply bind_ok in H as (bs & Hbs & H).
    injection H as <-. constructor; [exact Hb | apply IH, Hbs].
Qed.

Lemma with_cumulative_built (r : raw_row) (a b c d e f : option Z) :
  cumulative_built (with_cumulative r a b c d e f).
Proof.
  split; [reflexivity |].
  intros seg p H. destruct seg; simpl in H; inversion H; reflexivity.
Qed.

(** A row of the assembled table is a line of the file with its six time
    cells converted and the cumulative columns built from them. *)
Lemma assemble_row (raw : list raw_row) (swim t1 bike t2 run total : list (option Z)) :
  Forall2 (fun l v => time_to_seconds (raw_Swim l) = Ok v) raw swim ->
  Forall2 (fun l v => time_to_seconds (raw_T1 l) = Ok v) raw t1 ->
  Forall2 (fun l v => time_to_seconds (raw_Bike l) = Ok v) raw bike ->
  Forall2 (fun l v => time_to_seconds (raw_T2 l) = Ok v) raw t2 ->
  Forall2 (fun l v => time_to_seconds (raw_Run l) = Ok v) raw run ->
  Forall2 (fun l v => time_to_seconds (raw_Total_Time l) = Ok v) raw total ->
  forall r, In r (assemble raw swim t1 bike t2 run total) ->
  exists l, In l raw
    /\ r = with_cumulative l (Swim r) (T1 r) (Bike r) (T2 r) (Run r) (Total_Time r)
    /\ time_to_seconds (raw_Swim l) = Ok (Swim r)
    /\ time_to_seconds (raw_T1 l) = Ok (T1 r)
    /\ time_to_seconds (raw_Bike l) = Ok (Bike r)
    /\ time_to_seconds (raw_T2 l) = Ok (T2 r)
    /\ time_to_seconds (raw_Run l) = Ok (Run r)
    /\ time_to_seconds (raw_Total_Time l) = Ok (Total_Time r).
Proof.
  unfold assemble.
  intros H1; revert t1 bike t2 run total.
  induction H1 as [| l a raw swim Ha _ IH]; intros t1 bike t2 run total H2 H3 H4 H5 H6 r Hin.
  - contradiction Hin.
  - inversion H2 as [| ? b ? t1' Hb H2']; subst.
    inversion H3 as [| ? c ? bike' Hc H3']; subst.
    inversion H4 as [| ? d ? t2' Hd H4']; subst.
    inversion H5 as [| ? e ? run' He H5']; subst.
    inversion H6 as [| ? f ? total' Hf H6']; subst.
    simpl in Hin. destruct Hin as [<- | Hin].
    + exists l. simpl. repeat split; auto.
    + destruct (IH t1' bike' t2' run' total' H2' H3' H4' H5' H6' r Hin) as (l' & Hl' & Hrest).
      exists l'. split; [right; exact Hl' | exact Hrest].
Qed.

Lemma process_data_decoded (b64decode : string -> option string)
    (read_csv : string -> read_result) (contents filename : string)
    (x : option DataFrame * option string) :
  process_data b64decode read_csv contents filename = Ok x ->
  exists decoded, decoded_payload b64decode contents = Ok decoded.
Proof.
  unfold process_data. intro H. apply bind_ok in H as (decoded & Hd & _).
  exists decoded. exact Hd.
Qed.

Lemma process_data_after (b64decode : string -> option string)
    (read_csv : string -> read_result) (contents filename decoded : string) :
  decoded_payload b64decode contents = Ok decoded ->
  process_data b64decode read_csv contents filename
  = if Py.contains "csv" filename then
      match read_csv decoded with
      | ReadFailed e => Ok (None, Some e)
      | ReadOk raw =>
          swim <- apply time_to_seconds (map raw_Swim raw) ;;
          t1 <- apply time_to_seconds (map raw_T1 raw) ;;
          bike <- apply time_to_seconds (map raw_Bike raw) ;;
          t2 <- apply time_to_seconds (map raw_T2 raw) ;;
          run <- apply time_to_seconds (map raw_Run raw) ;;
          total <- apply time_to_seconds (map raw_Total_Time raw) ;;
          Ok (Some (assemble raw swim t1 bike t2 run total), None)
      end
    else Ok (None, Some unsupported_message).
Proof. intro H. unfold process_data. rewrite H. reflexivity. Qed.

Lemma process_data_row (b64decode : string -> option string)
    (read_csv : string -> read_result)
    (contents filename : string) (df : DataFrame) (msg : option string) (r : row) :
  process_data b64decode read_csv contents filename = Ok (Some df, msg) ->
  In r df ->
  exists decoded raw l,
    decoded_payload b64decode contents = Ok decoded
    /\ read_csv decoded = ReadOk raw /\ In l raw
    /\ r = with_cumulative l (Swim r) (T1 r) (Bike r) (T2 r) (Run r) (Total_Time r)
    /\ forall seg,
         time_to_seconds (match seg with
                          | seg_Swim => raw_Swim l
                          | seg_T1 => raw_T1 l
                          | seg_Bike => raw_Bike l
                          | seg_T2 => raw_T2 l
                          | seg_Run => raw_Run l
                          end) = Ok (duration seg r).
Proof.
  intros H Hin.
  destruct (process_data_decoded _ _ _ _ _ H) as (decoded & Hd).
  rewrite (process_data_after _ read_csv _ filename _ Hd) in H.
  destruct (Py.contains "csv" filename); [| discriminate H].
  destruct (read_csv decoded) as [raw | e] eqn:Hread; [| discriminate H].
  apply bind_ok in H as (swim & Hswim & H).
  apply bind_ok in H as (t1 & Ht1 & H).
  apply bind_ok in H as (bike & Hbike & H).
  apply bind_ok in H as (t2 & Ht2 & H).
  apply bind_ok in H as (run & Hrun & H).
  apply bind_ok in H as (total & Htotal & H).
  injection H as <- _.
  apply apply_pointwise in Hswim, Ht1, Hbike, Ht2, Hrun, Htotal.
  destruct (assemble_row raw swim t1 bike t2 run total Hswim Ht1 Hbike Ht2 Hrun Htotal r Hin)
    as (l & Hl & Hr & E1 & E2 & E3 & E4 & E5 & _).
  exists decoded, raw, l.
  split; [exact Hd |]. split; [exact Hread |]. split; [exact Hl |]. split; [exact Hr |].
  intros []; assumption.
Qed.

Lemma process_data_built (b64decode : string -> option string)
    (read_csv : string -> read_result)
    (contents filename : string) (df : DataFrame) (msg : option string) (r : row) :
  process_data b64decode read_csv contents filename = Ok (Some df, msg) ->
  In r df -> cumulative_built r.
Proof.
  intros H Hin.
  destruct (process_data_row b64decode read_csv contents filename df msg r H Hin)
    as (decoded & raw & l & _ & _ & _ & Hr & _).
  rewrite Hr. apply with_cumulative_built.
Qed.

Lemma nan_add_some (a b : option Z) (v : Z) :
  nan_add a b = Some v <-> exists x y, a = Some x /\ b = Some y /\ v = x + y.
Proof.
  destruct a as [x |], b as [y |]; simpl; split.
  - intro H; injection H as <-. exists x, y. auto.
  - intros (x' & y' & Hx & Hy & ->). congruence.
  - discriminate.
  - intros (x' & y' & _ & Hy & _). discriminate Hy.
  - discriminate.
  - intros (x' & y' & Hx & _). discriminate Hx.
  - discriminate.
  - intros (x' & y' & Hx & _). discriminate Hx.
Qed.

Lemma built_equations (r : row) :
  cumulative_built r ->
  Swim_Cum r = Swim r
  /\ T1_Cum r = nan_add (Swim_Cum r) (T1 r)
  /\ Bike_Cum r = nan_add (T1_Cum r) (Bike r)
  /\ T2_Cum r = nan_add (Bike_Cum r) (T2 r)
  /\ Run_Cum r = nan_add (T2_Cum r) (Run r).
Proof.
  intros [H0 H].
  split; [exact H0 |].
  split; [exact (H seg_T1 seg_Swim eq_refl) |].
  split; [exact (H seg_Bike seg_T1 eq_refl) |].
  split; [exact (H seg_T2 seg_Bike eq_refl) | exact (H seg_Run seg_T2 eq_refl)].
Qed.

Lemma built_absence (r : row) (seg seg' : segment) :
  cumulative_built r ->
  duration seg r = None -> (seg_index seg <= seg_index seg')%nat ->
  cumulative seg' r = None.
Proof.
  intros Hb Hd Hle.
  destruct (built_equations r Hb) as (E0 & E1 & E2 & E3 & E4).
  destruct seg, seg'; simpl in *; try lia;
    rewrite ?E4, ?E3, ?E2, ?E1, ?E0, Hd;
    destruct (Swim r), (T1 r), (Bike r), (T2 r), (Run r); reflexivity.
Qed.

(** Absence only moves forward: a present cumulative value has every
    earlier one present. *)
Lemma built_presence (r : row) (seg seg' : segment) (v : Z) :
  cumulative_built r ->
  cumulative seg' r = Some v -> (seg_index seg <= seg_index seg')%nat ->
  exists u, cumulative seg r = Some u.
Proof.
  intros Hb Hv Hle.
  destruct (built_equations r Hb) as (E0 & E1 & E2 & E3 & E4).
  destruct seg, seg'; simpl in *; try lia;
    rewrite ?E4, ?E3, ?E2, ?E1, ?E0 in *;
    destruct (Swim r), (T1 r), (Bike r), (T2 r), (Run r);
    simpl in *; try discriminate; eexists; reflexivity.
Qed.

(** C2: in the table that [process_data] returns, the cumulative Swim
    value is the Swim duration; each later cumulative value is present
    exactly when the one before it and the segment's own duration both
    are, and is then their sum (the sum as a number is stated for a table
    within the exact range, where the columns add exactly); an absent
    duration makes the cumulative value of its segment and of every later
    segment absent, whatever the later durations are - for Bike: those of
    Bike, T2 and Run. *)
Theorem absence_propagates (b64decode : string -> option string)
    (read_csv : string -> read_result)
    (contents filename : string) (df : DataFrame) (msg : option string) (r : row) :
  process_data b64decode read_csv contents filename = Ok (Some df, msg) ->
  In r df ->
  cumulative seg_Swim r = duration seg_Swim r
  /\ (forall seg p, previous seg = Some p ->
        ((exists v, cumulative seg r = Some v)
         <-> (exists a, cumulative p r = Some a) /\ (exists b, duration seg r = Some b)))
  /\ (exact_table df ->
      forall seg p v, previous seg = Some p ->
        (cumulative seg r = Some v
         <-> exists a b, cumulative p r = Some a /\ duration seg r = Some b /\ v = a + b))
  /\ (forall seg seg', duration seg r = None -> (seg_index seg <= seg_index seg')%nat ->
        cumulative seg' r = None)
  /\ (duration seg_Bike r = None ->
        cumulative seg_Bike r = None /\ cumulative seg_T2 r = None
        /\ cumulative seg_Run r = None).
Proof.
  intros H Hin.
  pose proof (process_data_built b64decode read_csv contents filename df msg r H Hin) as Hb.
  split; [exact (proj1 Hb) |].
  split; [| split; [| split]].
  - intros seg p Hp. rewrite (proj2 Hb seg p Hp).
    destruct (cumulative p r) as [a |], (duration seg r) as [b |]; simpl; split.
    + intros _. split; eexists; reflexivity.
    + intros _. eexists; reflexivity.
    + intros [v Hv]; discriminate Hv.
    + intros [_ [b Hb']]; discriminate Hb'.
    + intros [v Hv]; discriminate Hv.
    + intros [[a Ha] _]; discriminate Ha.
    + intros [v Hv]; discriminate Hv.
    + intros [[a Ha] _]; discriminate Ha.
  - intros _ seg p v Hp. rewrite (proj2 Hb seg p Hp). apply nan_add_some.
  - intros seg seg'. apply built_absence, Hb.
  - intro Hd. repeat split; apply (built_absence r seg_Bike _ Hb Hd); simpl; lia.
Qed.

Lemma absence_propagates_witness :
  process_data example_b64decode three_rows "data:text/csv;base64," "race.csv"
    = Ok (Some (table_of three_rows), None)
  /\ exact_table (table_of three_rows)
  /\ (exists r, In r (table_of three_rows)
        /\ Athlete_First_Name r = "Cy"
        /\ duration seg_Bike r = None
        /\ duration seg_Swim r = Some 540
        /\ (cumulative seg_T1 r = Some 605
            <-> exists a b, cumulative seg_Swim r = Some a /\ duration seg_T1 r = Some b
                            /\ 605 = a + b)
        /\ cumulative seg_Bike r = None /\ cumulative seg_T2 r = None
        /\ cumulative seg_Run r = None).
Proof.
  split; [reflexivity |]. split; [reflexivity |].
  exists (nth 2 (table_of three_rows) (with_cumulative cy None None None None None None)).
  assert (Hin : In (nth 2 (table_of three_rows)
                        (with_cumulative cy None None None None None None))
                   (table_of three_rows))
    by (vm_compute; right; right; left; reflexivity).
  split; [exact Hin |].
  split; [reflexivity |]. split; [reflexivity |]. split; [reflexivity |].
  split.
  - exact (proj1 (proj2 (proj2
             (absence_propagates example_b64decode three_rows "data:text/csv;base64,"
                "race.csv" (table_of three_rows) None _ eq_refl Hin)))
             eq_refl seg_T1 seg_Swim 605 eq_refl).
  - exact (proj2 (proj2 (proj2 (proj2
             (absence_propagates example_b64decode three_rows "data:text/csv;base64,"
                "race.csv" (table_of three_rows) None _ eq_refl Hin)))) eq_refl).
Defined.

Lemma built_monotone (r : row) :
  cumulative_built r ->
  (forall seg, exists d, duration seg r = Some d /\ 0 <= d) ->
  exists c0 c1 c2 c3 c4,
    cumulative seg_Swim r = Some c0 /\ cumulative seg_T1 r = Some c1
    /\ cumulative seg_Bike r = Some c2 /\ cumulative seg_T2 r = Some c3
    /\ cumulative seg_Run r = Some c4
    /\ c0 <= c1 /\ c1 <= c2 /\ c2 <= c3 /\ c3 <= c4.
Proof.
  intros Hb Hd.
  destruct (built_equations r Hb) as (E0 & E1 & E2 & E3 & E4).
  destruct (Hd seg_Swim) as (d0 & D0 & P0).
  destruct (Hd seg_T1) as (d1 & D1 & P1).
  destruct (Hd seg_Bike) as (d2 & D2 & P2).
  destruct (Hd seg_T2) as (d3 & D3 & P3).
  destruct (Hd seg_Run) as (d4 & D4 & P4).
  simpl in *.
  rewrite D0 in E0. rewrite E0, D1 in E1. simpl in E1.
  rewrite E1, D2 in E2. simpl in E2.
  rewrite E2, D3 in E3. simpl in E3.
  rewrite E3, D4 in E4. simpl in E4.
  exists d0, (d0 + d1), (d0 + d1 + d2), (d0 + d1 + d2 + d3), (d0 + d1 + d2 + d3 + d4).
  repeat split; try assumption; lia.
Qed.

(** C6: in the table that [process_data] returns, within the exact
    range, a row whose five durations are all present and non-negative
    has its five cumulative values present and non-decreasing in the
    order Swim, T1, Bike, T2, Run. *)
Theorem cumulative_monotone (b64decode : string -> option string)
    (read_csv : string -> read_result)
    (contents filename : string) (df : DataFrame) (msg : option string) (r : row) :
  process_data b64decode read_csv contents filename = Ok (Some df, msg) ->
  exact_table df ->
  In r df ->
  (forall seg, exists d, duration seg r = Some d /\ 0 <= d) ->
  exists c0 c1 c2 c3 c4,
    cumulative seg_Swim r = Some c0 /\ cumulative seg_T1 r = Some c1
    /\ cumulative seg_Bike r = Some c2 /\ cumulative seg_T2 r = Some c3
    /\ cumulative seg_Run r = Some c4
    /\ c0 <= c1 /\ c1 <= c2 /\ c2 <= c3 /\ c3 <= c4.
Proof.
  intros H _ Hin Hd.
  apply built_monotone; [| exact Hd].
  exact (process_data_built b64decode read_csv contents filename df msg r H Hin).
Qed.

Lemma cumulative_monotone_witness :
  exact_table (table_of three_rows)
  /\ exists r, In r (table_of three_rows)
    /\ (forall seg, exists d, duration seg r = Some d /\ 0 <= d)
    /\ exists c0 c1 c2 c3 c4,
         cumulative seg_Swim r = Some c0 /\ cumulative seg_T1 r = Some c1
         /\ cumulative seg_Bike r = Some c2 /\ cumulative seg_T2 r = Some c3
         /\ cumulative seg_Run r = Some c4
         /\ c0 <= c1 /\ c1 <= c2 /\ c2 <= c3 /\ c3 <= c4.
Proof.
  assert (He : exact_table (table_of three_rows)) by reflexivity.
  split; [exact He |].
  exists (with_cumulative ann (Some 600) (Some 60) (Some 1800) (Some 50) (Some 1200) (Some 3710)).
  assert (Hin : In (with_cumulative ann (Some 600) (Some 60) (Some 1800) (Some 50)
                      (Some 1200) (Some 3710))
                   (table_of three_rows))
    by (left; reflexivity).
  assert (Hd : forall seg, exists d,
             duration seg (with_cumulative ann (Some 600) (Some 60) (Some 1800) (Some 50)
                             (Some 1200) (Some 3710)) = Some d /\ 0 <= d)
    by (intros []; eexists; (split; [reflexivity | lia])).
  split; [exact Hin |]. split; [exact Hd |].
  exact (cumulative_monotone example_b64decode three_rows "data:text/csv;base64," "race.csv"
           (table_of three_rows) None _ eq_refl He Hin Hd).
Defined.

(** ** Ranks *)

Lemma filter_length_split {A} (p q r : A -> bool) (l : list A) :
  (forall a, In a l -> q a = (p a || r a)%bool /\ (p a && r a)%bool = false) ->
  length (filter q l) = (length (filter p l) + length (filter r l))%nat.
Proof.
  induction l as [| a l IH]; intro H; [reflexivity |].
  simpl. destruct (H a (or_introl eq_refl)) as [Hq Hd].
  rewrite Hq. specialize (IH (fun b Hb => H b (or_intror Hb))).
  destruct (p a), (r a); simpl in *; try discriminate; lia.
Qed.

Lemma filter_length_le {A} (p q : A -> bool) (l : list A) :
  (forall a, p a = true -> q a = true) ->
  (length (filter p l) <= length (filter q l))%nat.
Proof.
  intro H. induction l as [| a l IH]; [apply le_n |].
  simpl. destruct (p a) eqn:Ep.
  - rewrite (H a Ep). simpl. lia.
  - destruct (q a); simpl; lia.
Qed.

Lemma filter_length_lt {A} (p q : A -> bool) (l : list A) (x : A) :
  (forall a, p a = true -> q a = true) ->
  In x l -> p x = false -> q x = true ->
  (length (filter p l) < length (filter q l))%nat.
Proof.
  intros H Hin Hp Hq. induction l as [| a l IH]; [contradiction Hin |].
  simpl. destruct Hin as [-> | Hin].
  - rewrite Hp, Hq. simpl.
    pose proof (filter_length_le p q l H). lia.
  - specialize (IH Hin). destruct (p a) eqn:Ep.
    + rewrite (H a Ep). simpl. lia.
    + destruct (q a); simpl; lia.
Qed.

Lemma filter_length_bound {A} (p : A -> bool) (l : list A) :
  (length (filter p l) <= length l)%nat.
Proof.
  induction l as [| a l IH]; [apply le_n |].
  simpl. destruct (p a); simpl; lia.
Qed.

Lemma rank_present_lt (col : list (option Z)) (a b : Z) :
  In (Some a) col -> a < b ->
  rank_min_bottom col (Some a) < rank_min_bottom col (Some b).
Proof.
  intros Hin Hab. unfold rank_min_bottom.
  assert (length (filter (fun u => sorts_before u (Some a)) col)
          < length (filter (fun u => sorts_before u (Some b)) col))%nat; [| lia].
  apply (filter_length_lt _ _ col (Some a)).
  - intros [c |]; simpl; [| discriminate].
    intro H. apply Z.ltb_lt in H. apply Z.ltb_lt. lia.
  - exact Hin.
  - simpl. apply Z.ltb_irrefl.
  - simpl. apply Z.ltb_lt, Hab.
Qed.

Lemma rank_absent_last (col : list (option Z)) (a : Z) :
  In (Some a) col ->
  rank_min_bottom col (Some a) < rank_min_bottom col None.
Proof.
  intro Hin. unfold rank_min_bottom.
  assert (length (filter (fun u => sorts_before u (Some a)) col)
          < length (filter (fun u => sorts_before u None) col))%nat; [| lia].
  apply (filter_length_lt _ _ col (Some a)).
  - intros [c |]; simpl; [reflexivity | discriminate].
  - exact Hin.
  - simpl. apply Z.ltb_irrefl.
  - reflexivity.
Qed.

Lemma rank_absent_value (col : list (option Z)) :
  rank_min_bottom col None = 1 + Z.of_nat (length (filter present col)).
Proof.
  unfold rank_min_bottom.
  assert (E : filter (fun u => sorts_before u None) col = filter present col)
    by (induction col as [| [c |] col IH]; simpl; congruence).
  rewrite E. reflexivity.
Qed.

Lemma rank_range (col : list (option Z)) (v : option Z) :
  In v col -> 1 <= rank_min_bottom col v <= Z.of_nat (length col).
Proof.
  intro Hin. unfold rank_min_bottom. split; [lia |].
  assert (length (filter (fun u => sorts_before u v) col)
          < length (filter (fun _ => true) col))%nat.
  { apply (filter_length_lt _ _ col v); auto.
    destruct v as [c |]; simpl; [apply Z.ltb_irrefl | reflexivity]. }
  pose proof (filter_length_bound (fun _ : option Z => true) col). lia.
Qed.

(** After a group of equal values the rank moves on by the size of the
    group. *)
Lemma rank_next_value (col : list (option Z)) (a b : Z) :
  a < b ->
  (forall c, In (Some c) col -> ~ (a < c < b)) ->
  rank_min_bottom col (Some b)
  = rank_min_bottom col (Some a) + Z.of_nat (length (filter (holds a) col)).
Proof.
  intros Hab Hgap. unfold rank_min_bottom.
  rewrite (filter_length_split (fun u => sorts_before u (Some a)) _ (holds a)); [lia |].
  intros [c |] Hin; simpl; [| split; reflexivity].
  specialize (Hgap c Hin).
  destruct (c <? b) eqn:E1, (c <? a) eqn:E2, (c =? a) eqn:E3; simpl; split; try reflexivity;
    try apply Z.ltb_lt in E1; try apply Z.ltb_lt in E2; try apply Z.eqb_eq in E3;
    try apply Z.ltb_ge in E1; try apply Z.ltb_ge in E2; try apply Z.eqb_neq in E3; lia.
Qed.

Lemma add_rank_columns_in (df : DataFrame) (v : view_row) :
  In v (add_rank_columns df) ->
  In (athlete v) df
  /\ forall seg, derived v seg
       = Some (rank_min_bottom (map (cumulative seg) df) (cumulative seg (athlete v))).
Proof.
  unfold add_rank_columns. intro H.
  apply in_map_iff in H as (r & <- & Hr). simpl. split; [exact Hr | reflexivity].
Qed.

(** C3, the input on which the claim fails: two athletes level at 100 and
    a third at 150.  The third gets rank 3; under dense ranking the next
    distinct value would get the next rank, 2. *)
Lemma rank_after_tie_skips :
  map (cumulative seg_Swim) (table_of tied_rows) = [Some 100; Some 100; Some 150]
  /\ map (fun v => derived v seg_Swim) (add_rank_columns (table_of tied_rows))
     = [Some 1; Some 1; Some 3]
  /\ map (documented_dense_rank (map (cumulative seg_Swim) (table_of tied_rows)))
         (map (cumulative seg_Swim) (table_of tied_rows))
     = [1; 1; 2].
Proof. repeat split. Qed.

(** C3 (amended): the rank view gives each of the five cumulative columns,
    on its own, the minimum rank with gaps after ties: equal values share
    one rank, a smaller value has a strictly smaller rank, and the next
    distinct value has the rank of the group before it plus the size of
    that group (not the next consecutive rank).  Absent values rank after
    every present value, all at one more than the number of present
    values.  Ranks lie between 1 and the number of athletes.  With two
    athletes at 100 and 150 the ranks are 1 and 2. *)
Theorem rank_view_min_rank (df : DataFrame) (seg : segment) :
  let col := map (cumulative seg) df in
  let rank_of v := derived v seg in
  (forall v, In v (add_rank_columns df) ->
     exists k, rank_of v = Some k /\ 1 <= k <= Z.of_nat (length df))
  /\ (forall v w, In v (add_rank_columns df) -> In w (add_rank_columns df) ->
        cumulative seg (athlete v) = cumulative seg (athlete w) -> rank_of v = rank_of w)
  /\ (forall v w a b, In v (add_rank_columns df) -> In w (add_rank_columns df) ->
        cumulative seg (athlete v) = Some a -> cumulative seg (athlete w) = Some b ->
        a < b ->
        exists i j, rank_of v = Some i /\ rank_of w = Some j /\ i < j)
  /\ (forall v w a b, In v (add_rank_columns df) -> In w (add_rank_columns df) ->
        cumulative seg (athlete v) = Some a -> cumulative seg (athlete w) = Some b ->
        a < b -> (forall c, In (Some c) col -> ~ (a < c < b)) ->
        exists i, rank_of v = Some i
                  /\ rank_of w = Some (i + Z.of_nat (length (filter (holds a) col))))
  /\ (forall v w a, In v (add_rank_columns df) -> In w (add_rank_columns df) ->
        cumulative seg (athlete v) = Some a -> cumulative seg (athlete w) = None ->
        exists i j, rank_of v = Some i /\ rank_of w = Some j /\ i < j)
  /\ (forall w, In w (add_rank_columns df) -> cumulative seg (athlete w) = None ->
        rank_of w = Some (1 + Z.of_nat (length (filter present col))))
  /\ (forall r1 r2, Swim_Cum r1 = Some 100 -> Swim_Cum r2 = Some 150 ->
        map (fun v => derived v seg_Swim) (add_rank_columns [r1; r2]) = [Some 1; Some 2]).
Proof.
  intros col rank_of. unfold rank_of.
  assert (Hcol : forall v, In v (add_rank_columns df) -> In (cumulative seg (athlete v)) col).
  { intros v Hv. apply add_rank_columns_in in Hv as [Hv _].
    unfold col. apply in_map, Hv. }
  repeat split.
  - intros v Hv. pose proof (Hcol v Hv) as Hc.
    apply add_rank_columns_in in Hv as [_ Hv]. rewrite Hv.
    eexists; split; [reflexivity |].
    replace (length df) with (length col) by apply length_map.
    apply rank_range, Hc.
  - intros v w Hv Hw E.
    apply add_rank_columns_in in Hv as [_ Hv]. apply add_rank_columns_in in Hw as [_ Hw].
    rewrite Hv, Hw, E. reflexivity.
  - intros v w a b Hv Hw Ea Eb Hab. pose proof (Hcol v Hv) as Hc.
    apply add_rank_columns_in in Hv as [_ Hv]. apply add_rank_columns_in in Hw as [_ Hw].
    rewrite Hv, Hw, Ea, Eb. do 2 eexists. split; [reflexivity |]. split; [reflexivity |].
    apply rank_present_lt; [rewrite <- Ea; exact Hc | exact Hab].
  - intros v w a b Hv Hw Ea Eb Hab Hgap.
    apply add_rank_columns_in in Hv as [_ Hv]. apply add_rank_columns_in in Hw as [_ Hw].
    rewrite Hv, Hw, Ea, Eb. eexists. split; [reflexivity |].
    f_equal. apply rank_next_value; assumption.
  - intros v w a Hv Hw Ea Eb. pose proof (Hcol v Hv) as Hc.
    apply add_rank_columns_in in Hv as [_ Hv]. apply add_rank_columns_in in Hw as [_ Hw].
    rewrite Hv, Hw, Ea, Eb. do 2 eexists. split; [reflexivity |]. split; [reflexivity |].
    apply rank_absent_last. rewrite <- Ea. exact Hc.
  - intros w Hw Eb.
    apply add_rank_columns_in in Hw as [_ Hw].
    rewrite Hw, Eb. rewrite rank_absent_value. reflexivity.
  - intros r1 r2 E1 E2. unfold add_rank_columns. simpl. rewrite E1, E2. reflexivity.
Qed.

Lemma rank_view_min_rank_witness :
  exists v w,
    In v (add_rank_columns (table_of tied_rows))
    /\ In w (add_rank_columns (table_of tied_rows))
    /\ cumulative seg_Swim (athlete v) = Some 100
    /\ cumulative seg_Swim (athlete w) = Some 150
    /\ 100 < 150
    /\ exists i j, derived v seg_Swim = Some i /\ derived w seg_Swim = Some j /\ i < j.
Proof.
  exists (nth 0 (add_rank_columns (table_of tied_rows)) (mk_view (with_cumulative cy None None None None None None) (fun _ => None))).
  exists (nth 2 (add_rank_columns (table_of tied_rows)) (mk_view (with_cumulative cy None None None None None None) (fun _ => None))).
  assert (Hv : In (nth 0 (add_rank_columns (table_of tied_rows))
                     (mk_view (with_cumulative cy None None None None None None) (fun _ => None)))
                  (add_rank_columns (table_of tied_rows)))
    by (left; reflexivity).
  assert (Hw : In (nth 2 (add_rank_columns (table_of tied_rows))
                     (mk_view (with_cumulative cy None None None None None None) (fun _ => None)))
                  (add_rank_columns (table_of tied_rows)))
    by (right; right; left; reflexivity).
  split; [exact Hv |]. split; [exact Hw |].
  split; [reflexivity |]. split; [reflexivity |]. split; [lia |].
  exact (proj1 (proj2 (proj2 (rank_view_min_rank (table_of tied_rows) seg_Swim)))
           _ _ 100 150 Hv Hw eq_refl eq_refl eq_refl).
Defined.

(** ** Gaps *)

Lemma column_min_in (col : list (option Z)) (m : Z) :
  column_min col = Some m -> In (Some m) col.
Proof.
  revert m. induction col as [| a col IH]; intro m; [discriminate |].
  unfold column_min in *. simpl.
  destruct a as [x |], (fold_right nan_min None col) as [y |]; simpl; intro H;
    try discriminate H; injection H as <-.
  - destruct (Z.min_spec x y) as [[_ E] | [_ E]]; rewrite E;
      [left; reflexivity | right; apply IH; reflexivity].
  - left; reflexivity.
  - right; apply IH; reflexivity.
Qed.

Lemma column_min_lower (col : list (option Z)) (c : Z) :
  In (Some c) col -> exists m, column_min col = Some m /\ m <= c.
Proof.
  induction col as [| a col IH]; simpl; [contradiction |].
  unfold column_min in *. simpl.
  intros [-> | Hin].
  - destruct (fold_right nan_min None col) as [y |]; simpl; eexists; split;
      try reflexivity; lia.
  - destruct (IH Hin) as (m & -> & Hm).
    destruct a as [x |]; simpl; eexists; split; try reflexivity; lia.
Qed.

Lemma add_gap_columns_in (df : DataFrame) (v : view_row) :
  In v (add_gap_columns df) ->
  In (athlete v) df /\ forall seg, derived v seg = gap df seg (athlete v).
Proof.
  unfold add_gap_columns. intro H.
  apply in_map_iff in H as (r & <- & Hr). simpl. split; [exact Hr | reflexivity].
Qed.

(** C4: in each of the five cumulative columns of a table within the
    exact range the gap of an athlete is the athlete's cumulative value
    minus the least present value of the column; that least value is the
    value of some athlete and no present value is below it; the gap of an
    athlete with a present value is never negative.  An athlete who holds
    the least value of a column has gap 0. *)
Theorem gap_view_from_leader (df : DataFrame) (seg : segment) (v : view_row) :
  In v (add_gap_columns df) ->
  (exact_table df ->
   derived v seg
   = nan_sub (cumulative seg (athlete v)) (column_min (map (cumulative seg) df))
   /\ forall c, cumulative seg (athlete v) = Some c ->
        exists m,
          column_min (map (cumulative seg) df) = Some m
          /\ (exists r, In r df /\ cumulative seg r = Some m)
          /\ (forall r c', In r df -> cumulative seg r = Some c' -> m <= c')
          /\ derived v seg = Some (c - m)
          /\ 0 <= c - m)
  /\ (forall c, cumulative seg (athlete v) = Some c ->
        (forall r c', In r df -> cumulative seg r = Some c' -> c <= c') ->
        derived v seg = Some 0).
Proof.
  intro Hv. apply add_gap_columns_in in Hv as [Hin Hd].
  assert (Hmain : forall c, cumulative seg (athlete v) = Some c ->
            exists m,
              column_min (map (cumulative seg) df) = Some m
              /\ (exists r, In r df /\ cumulative seg r = Some m)
              /\ (forall r c', In r df -> cumulative seg r = Some c' -> m <= c')
              /\ derived v seg = Some (c - m)
              /\ 0 <= c - m).
  { intros c Hc.
    assert (Hcol : In (Some c) (map (cumulative seg) df))
      by (rewrite <- Hc; apply in_map, Hin).
    destruct (column_min_lower _ c Hcol) as (m & Hm & Hle).
    exists m. split; [exact Hm |]. split; [| split; [| split]].
    - apply column_min_in in Hm. apply in_map_iff in Hm as (r & Hr & Hrin).
      exists r. split; assumption.
    - intros r c' Hr Hc'.
      assert (Hcol' : In (Some c') (map (cumulative seg) df))
        by (rewrite <- Hc'; apply in_map, Hr).
      destruct (column_min_lower _ c' Hcol') as (m' & Hm' & Hle').
      rewrite Hm in Hm'. injection Hm' as <-. exact Hle'.
    - rewrite Hd. unfold gap. rewrite Hc, Hm. reflexivity.
    - lia. }
  split; [intros _; split; [apply Hd | exact Hmain] |].
  intros c Hc Hleast.
  destruct (Hmain c Hc) as (m & _ & (r & Hr & Hrm) & _ & Hgap & Hpos).
  rewrite Hgap. f_equal.
  pose proof (Hleast r m Hr Hrm). lia.
Qed.

Lemma gap_view_from_leader_witness :
  exact_table (table_of three_rows)
  /\ exists v,
       In v (add_gap_columns (table_of three_rows))
       /\ cumulative seg_Swim (athlete v) = Some 600
       /\ (exists m, column_min (map (cumulative seg_Swim) (table_of three_rows)) = Some m
                     /\ derived v seg_Swim = Some (600 - m) /\ 0 <= 600 - m)
       /\ cumulative seg_Run (athlete v) = Some 3710
       /\ derived v seg_Run = Some 0.
Proof.
  assert (He : exact_table (table_of three_rows)) by reflexivity.
  split; [exact He |].
  exists (nth 0 (add_gap_columns (table_of three_rows))
              (mk_view (with_cumulative cy None None None None None None) (fun _ => None))).
  assert (Hv : In (nth 0 (add_gap_columns (table_of three_rows))
                     (mk_view (with_cumulative cy None None None None None None)
                        (fun _ => None)))
                  (add_gap_columns (table_of three_rows)))
    by (left; reflexivity).
  split; [exact Hv |]. split; [reflexivity |].
  split.
  { destruct (proj2 (proj1 (gap_view_from_leader (table_of three_rows) seg_Swim _ Hv) He)
                600 eq_refl) as (m & Hm & _ & _ & Hg & Hpos).
    exists m. split; [exact Hm |]. split; [exact Hg | exact Hpos]. }
  split; [reflexivity |].
  apply (proj2 (gap_view_from_leader (table_of three_rows) seg_Run _ Hv) 3710 eq_refl).
  intros r c' Hr Hc'.
  destruct Hr as [<- | [<- | [<- | []]]]; vm_compute in Hc'; try discriminate Hc';
    injection Hc' as <-; lia.
Defined.

(** ** Lines of the chart *)

Lemma insert_by_position_in (u v : view_row) (l : list view_row) :
  In v (insert_by_position u l) <-> v = u \/ In v l.
Proof.
  induction l as [| w l IH]; simpl.
  - intuition auto.
  - destruct (position_le (Position (athlete u)) (Position (athlete w))); simpl.
    + intuition auto.
    + rewrite IH. intuition auto.
Qed.

Lemma sort_values_in (v : view_row) (l : list view_row) :
  In v (sort_values l) <-> In v l.
Proof.
  unfold sort_values. induction l as [| u l IH]; simpl; [reflexivity |].
  rewrite insert_by_position_in, IH. intuition auto.
Qed.

Lemma traces_from_in (palette : list string) (m : mode) (max_rank : option Z)
    (y_axis_title : string) (h : option string) (view : list view_row) (t : trace) :
  forall i, In t (traces_from palette m max_rank y_axis_title h i view) ->
  exists j v, In v view /\ t = athlete_trace palette m max_rank y_axis_title h j v.
Proof.
  induction view as [| u view IH]; simpl; intros i H; [contradiction |].
  destruct H as [<- | H].
  - exists i, u. split; [left |]; reflexivity.
  - destruct (IH (S i) H) as (j & v & Hv & Ht).
    exists j, v. split; [right; exact Hv | exact Ht].
Qed.

Lemma traces_from_names (palette : list string) (m : mode) (max_rank : option Z)
    (y_axis_title : string) (h : option string) (view : list view_row) :
  forall i, map name (traces_from palette m max_rank y_axis_title h i view)
            = map (fun v => athlete_name (athlete v)) view.
Proof.
  induction view as [| u view IH]; simpl; intro i; [reflexivity |].
  rewrite IH. f_equal.
  unfold athlete_trace.
  destruct (walk (derived u) segments (tl x_values)) as [ys axs].
  destruct m; [destruct (_ <? _)%nat |]; reflexivity.
Qed.

(** A row whose five derived values are all present is walked to the end. *)
Lemma walk_complete (value : segment -> option Z) :
  (forall seg, exists g, value seg = Some g) ->
  exists ys,
    walk value segments (tl x_values) = (ys, tl x_values)
    /\ Forall2 (fun seg g => value seg = Some g) segments ys.
Proof.
  intro H.
  destruct (H seg_Swim) as (g0 & E0). destruct (H seg_T1) as (g1 & E1).
  destruct (H seg_Bike) as (g2 & E2). destruct (H seg_T2) as (g3 & E3).
  destruct (H seg_Run) as (g4 & E4).
  exists [g0; g1; g2; g3; g4]. split.
  - simpl. rewrite E0, E1, E2, E3, E4. reflexivity.
  - repeat constructor; assumption.
Qed.

Lemma complete_trace (palette : list string) (m : mode) (max_rank : option Z)
    (y_axis_title : string) (h : option string) (i : nat) (v : view_row) :
  (forall seg, exists g, derived v seg = Some g) ->
  exists ys,
    Forall2 (fun seg g => derived v seg = Some g) segments ys
    /\ x (athlete_trace palette m max_rank y_axis_title h i v) = x_values
    /\ y (athlete_trace palette m max_rank y_axis_title h i v) = 0 :: ys
    /\ name (athlete_trace palette m max_rank y_axis_title h i v)
       = athlete_name (athlete v).
Proof.
  intro H. destruct (walk_complete (derived v) H) as (ys & Hw & Hys).
  exists ys. split; [exact Hys |].
  assert (Hlen : length ys = 5%nat)
    by (apply Forall2_length in Hys; rewrite <- Hys; reflexivity).
  unfold athlete_trace. rewrite Hw.
  destruct ys as [| a [| b [| c [| d [| e [| f ys]]]]]]; try discriminate Hlen.
  destruct m; simpl; auto.
Qed.

(** In the rank view no derived value is ever absent, so every line runs
    over all six anchors and the padding branch is never taken. *)
Lemma position_lines_complete (palette : list string) (df : DataFrame)
    (filename : string) (h : option string) (t : trace) :
  In t (data (create_figure palette df position filename h)) ->
  exists r ys,
    In r df /\ name t = athlete_name r
    /\ x t = x_values /\ y t = 0 :: ys
    /\ Forall2 (fun seg g =>
                  g = rank_min_bottom (map (cumulative seg) df) (cumulative seg r))
               segments ys.
Proof.
  unfold create_figure. simpl. intro H.
  apply traces_from_in in H as (j & v & Hv & ->).
  apply (proj1 (sort_values_in _ _)) in Hv. apply add_rank_columns_in in Hv as [Hr Hd].
  destruct (complete_trace palette position (max_over (add_rank_columns df)) "Rank" h j v)
    as (ys & Hys & Hx & Hy & Hn).
  { intro seg. rewrite Hd. eexists; reflexivity. }
  exists (athlete v), ys. repeat split; try assumption.
  clear - Hys Hd. induction Hys as [| seg g segs ys Hg _ IH]; constructor; [| exact IH].
  rewrite Hd in Hg. injection Hg as <-. reflexivity.
Qed.

(** The gap view keeps the athletes with a cumulative Run value and no
    others. *)
Lemma gap_lines_have_run (palette : list string) (df : DataFrame)
    (filename : string) (h : option string) :
  map name (data (create_figure palette df time_gap filename h))
  = map (fun v => athlete_name (athlete v))
        (sort_values (filter (fun v => present (Run_Cum (athlete v))) (add_gap_columns df))).
Proof.
  unfold create_figure. simpl. rewrite traces_from_names. reflexivity.
Qed.

Lemma position_lines_all (palette : list string) (df : DataFrame)
    (filename : string) (h : option string) :
  map name (data (create_figure palette df position filename h))
  = map (fun v => athlete_name (athlete v)) (sort_values (add_rank_columns df)).
Proof.
  unfold create_figure. simpl. rewrite traces_from_names. reflexivity.
Qed.

(** C5, the code at the table of Ann, Bob and Cy, where Cy has no bike
    time.  In the gap view Cy has no line.  In the rank view Cy's line has
    all six points, the last three at the bottom rank 3; it does not stop
    after T1 and carries no padding point, which would have made it
    x = 0, 0.5, 0.6, 0.6 and y = 0, 1, 1, 3. *)
Theorem unfinished_athlete_line :
  let df := table_of three_rows in
  let ranks := create_figure two_colours df position "race.csv" None in
  let gaps := create_figure two_colours df time_gap "race.csv" None in
  map (cumulative seg_Run) df = [Some 3710; Some 4025; None]
  /\ map name (data gaps) = ["Ann Ames"; "Bob Birk"]
  /\ map (fun t => (name t, x t, y t)) (data ranks)
     = [("Ann Ames", x_values, [0; 2; 2; 1; 1; 1]);
        ("Bob Birk", x_values, [0; 3; 3; 2; 2; 2]);
        ("Cy Cole", x_values, [0; 1; 1; 3; 3; 3])]
  /\ max_over (add_rank_columns df) = Some 3
  /\ ~ In ("Cy Cole", [0; 0.5; 0.6; 0.6]%Q, [0; 1; 1; 3])
          (map (fun t => (name t, x t, y t)) (data ranks)).
Proof.
  cbv zeta. repeat split.
  vm_compute. intros [H | [H | [H | []]]]; discriminate H.
Qed.

(** C10: in the gap view of a table that [process_data] returned, every
    line belongs to an athlete with a cumulative Run value; that athlete
    has all five cumulative values and hence all five gaps present, and
    the line has all six points: the six anchors, with 0 at Start and the
    five gaps after it.  No line is truncated. *)
Theorem gap_lines_complete (b64decode : string -> option string)
    (read_csv : string -> read_result)
    (contents filename : string) (df : DataFrame) (msg : option string)
    (palette : list string) (h : option string) (t : trace) :
  process_data b64decode read_csv contents filename = Ok (Some df, msg) ->
  In t (data (create_figure palette df time_gap filename h)) ->
  exists r ys,
    In r df /\ name t = athlete_name r
    /\ (exists c, Run_Cum r = Some c)
    /\ (forall seg, exists c, cumulative seg r = Some c)
    /\ Forall2 (fun seg g => gap df seg r = Some g) segments ys
    /\ x t = x_values /\ y t = 0 :: ys
    /\ length (x t) = 6%nat /\ length (y t) = 6%nat.
Proof.
  intros Hp H. unfold create_figure in H. simpl in H.
  apply traces_from_in in H as (j & v & Hv & ->).
  apply (proj1 (sort_values_in _ _)) in Hv.
  apply filter_In in Hv as [Hv Hrun].
  apply add_gap_columns_in in Hv as [Hr Hd].
  destruct (Run_Cum (athlete v)) as [c |] eqn:Ec; [clear Hrun | discriminate Hrun].
  pose proof (process_data_built b64decode read_csv contents filename df msg (athlete v) Hp Hr) as Hb.
  assert (Hall : forall seg, exists u, cumulative seg (athlete v) = Some u).
  { intro seg. apply (built_presence (athlete v) seg seg_Run c Hb Ec).
    destruct seg; simpl; lia. }
  assert (Hgaps : forall seg, exists g, derived v seg = Some g).
  { intro seg. destruct (Hall seg) as (u & Hu).
    assert (Hcol : In (Some u) (map (cumulative seg) df))
      by (rewrite <- Hu; apply in_map, Hr).
    destruct (column_min_lower _ u Hcol) as (m & Hm & _).
    exists (u - m). rewrite Hd. unfold gap. rewrite Hu, Hm. reflexivity. }
  destruct (complete_trace palette time_gap None "Time Gap to Leader (seconds)" h j v Hgaps)
    as (ys & Hys & Hx & Hy & Hn).
  exists (athlete v), ys.
  split; [exact Hr |]. split; [exact Hn |]. split; [exists c; exact Ec |].
  split; [exact Hall |].
  split.
  { clear - Hys Hd. induction Hys as [| seg g segs ys Hg _ IH]; constructor; [| exact IH].
    rewrite <- Hd. exact Hg. }
  split; [exact Hx |]. split; [exact Hy |].
  rewrite Hx, Hy. split; [reflexivity |].
  apply Forall2_length in Hys. simpl. rewrite <- Hys. reflexivity.
Qed.

Lemma gap_lines_complete_witness :
  exists t,
    In t (data (create_figure two_colours (table_of three_rows) time_gap "race.csv" None))
    /\ name t = "Bob Birk"
    /\ exists r ys,
         In r (table_of three_rows) /\ name t = athlete_name r
         /\ (exists c, Run_Cum r = Some c)
         /\ (forall seg, exists c, cumulative seg r = Some c)
         /\ Forall2 (fun seg g => gap (table_of three_rows) seg r = Some g) segments ys
         /\ x t = x_values /\ y t = 0 :: ys
         /\ length (x t) = 6%nat /\ length (y t) = 6%nat.
Proof.
  exists (nth 1 (data (create_figure two_colours (table_of three_rows) time_gap
                         "race.csv" None))
              (mk_trace [] [] EmptyString [] EmptyString 0%Q)).
  assert (Hin : In (nth 1 (data (create_figure two_colours (table_of three_rows) time_gap
                                   "race.csv" None))
                        (mk_trace [] [] EmptyString [] EmptyString 0%Q))
                   (data (create_figure two_colours (table_of three_rows) time_gap
                            "race.csv" None)))
    by (right; left; reflexivity).
  split; [exact Hin |]. split; [reflexivity |].
  exact (gap_lines_complete example_b64decode three_rows "data:text/csv;base64," "race.csv"
           (table_of three_rows) None two_colours None _ eq_refl Hin).
Defined.

(** ** The highlight *)

Lemma athlete_trace_line (palette : list string) (m : mode) (max_rank : option Z)
    (y_axis_title : string) (h h' : option string) (i : nat) (v : view_row) :
  line_of (athlete_trace palette m max_rank y_axis_title h i v)
  = line_of (athlete_trace palette m max_rank y_axis_title h' i v).
Proof.
  unfold athlete_trace.
  destruct (walk (derived v) segments (tl x_values)) as [ys axs].
  destruct m; [destruct (_ <? _)%nat |]; reflexivity.
Qed.

Lemma athlete_trace_opacity (palette : list string) (m : mode) (max_rank : option Z)
    (y_axis_title : string) (h : option string) (i : nat) (v : view_row) :
  opacity (athlete_trace palette m max_rank y_axis_title h i v)
  = opacity_of h (name (athlete_trace palette m max_rank y_axis_title h i v)).
Proof.
  unfold athlete_trace.
  destruct (walk (derived v) segments (tl x_values)) as [ys axs].
  destruct m; [destruct (_ <? _)%nat |]; reflexivity.
Qed.

Lemma traces_from_line (palette : list string) (m : mode) (max_rank : option Z)
    (y_axis_title : string) (h h' : option string) (view : list view_row) :
  forall i, map line_of (traces_from palette m max_rank y_axis_title h i view)
            = map line_of (traces_from palette m max_rank y_axis_title h' i view).
Proof.
  induction view as [| u view IH]; simpl; intro i; [reflexivity |].
  rewrite (athlete_trace_line palette m max_rank y_axis_title h h' i u), IH. reflexivity.
Qed.

Lemma create_figure_opacity (palette : list string) (df : DataFrame) (m : mode)
    (filename : string) (h : option string) (t : trace) :
  In t (data (create_figure palette df m filename h)) ->
  opacity t = opacity_of h (name t).
Proof.
  unfold create_figure. destruct m; simpl; intro H;
    apply traces_from_in in H as (j & v & _ & ->); apply athlete_trace_opacity.
Qed.

(** The name under which an athlete is drawn is never empty: it holds the
    space between first and last name. *)
Lemma athlete_name_not_empty (r : row) : athlete_name r <> EmptyString.
Proof.
  unfold athlete_name. destruct (Athlete_First_Name r); discriminate.
Qed.

(** C9: for every table, mode and highlighted name [h] (a name is never
    empty, see [athlete_name_not_empty]), the chart drawn with the
    highlight and the chart drawn without it have, line by line, the same
    points, name, hover labels and colour, and the same layout.  Only the
    opacity differs: with the highlight a line has opacity 1 exactly when
    it bears the name [h] and 0.2 otherwise; without it every line has
    opacity 0.6. *)
Theorem highlight_changes_opacity_only (palette : list string) (df : DataFrame)
    (m : mode) (filename h : string) :
  h <> EmptyString ->
  let lit := create_figure palette df m filename (Some h) in
  let plain := create_figure palette df m filename None in
  map line_of (data lit) = map line_of (data plain)
  /\ fig_layout lit = fig_layout plain
  /\ (forall t, In t (data lit) ->
        (name t = h -> opacity t = 1%Q) /\ (name t <> h -> opacity t = 0.2%Q))
  /\ (forall t, In t (data plain) -> opacity t = 0.6%Q).
Proof.
  intros Hh lit plain. unfold lit, plain.
  split; [| split; [| split]].
  - unfold create_figure. destruct m; simpl; apply traces_from_line.
  - unfold create_figure. destruct m; reflexivity.
  - intros t Ht. rewrite (create_figure_opacity _ _ _ _ _ _ Ht). simpl.
    split.
    + intros ->. rewrite String.eqb_refl. reflexivity.
    + intro Hn.
      destruct (String.eqb_spec h (name t)) as [E | _]; [symmetry in E; contradiction |].
      destruct (String.eqb_spec h EmptyString) as [E | _]; [contradiction | reflexivity].
  - intros t Ht. rewrite (create_figure_opacity _ _ _ _ _ _ Ht). reflexivity.
Qed.

Lemma highlight_changes_opacity_only_witness :
  "Bob Birk" <> EmptyString
  /\ map opacity (data (create_figure two_colours (table_of three_rows) position
                          "race.csv" (Some "Bob Birk")))
     = [0.2; 1; 0.2]%Q
  /\ map line_of (data (create_figure two_colours (table_of three_rows) position
                          "race.csv" (Some "Bob Birk")))
     = map line_of (data (create_figure two_colours (table_of three_rows) position
                            "race.csv" None)).
Proof.
  split; [discriminate |]. split; [reflexivity |].
  apply (highlight_changes_opacity_only two_colours (table_of three_rows) position
           "race.csv" "Bob Birk").
  discriminate.
Defined.

(** ** Errors at the file boundary *)

(** C8, the inputs on which the claim fails.  A time field that is no
    number raises in [process_data], outside its guarded block: the
    exception leaves [process_data] and [update_graph], and no message and
    no hidden chart are returned.  And a file whose name holds "csv"
    without ending in [.csv] is read as a table. *)
Lemma duration_error_not_caught :
  process_data example_b64decode bad_swim "data:text/csv;base64," "race.csv" = Raise (ValueError "abc")
  /\ update_graph two_colours example_b64decode bad_swim visualize_button (Some position) None
       (Some "data:text/csv;base64,") "race.csv"
     = Raise (ValueError "abc")
  /\ documented_csv_extension "csv_notes.txt" = false
  /\ process_data example_b64decode three_rows "data:text/csv;base64," "csv_notes.txt"
     = Ok (Some (table_of three_rows), None).
Proof. repeat split. Qed.

(** C8 (amended): of the three kinds of error, the two that arise inside
    the guarded block of [process_data] are caught there.  For an upload
    whose contents unpack and whose payload decodes, a file name that does
    not contain "csv" gives no table and the unsupported-file-type
    message, and a failure to decode the text or to parse the table gives
    no table and the text of the error.  In both cases [update_graph]
    returns an empty figure with the chart area hidden (for a failure,
    when the text of the error is not empty). *)
Theorem read_errors_hide_chart (palette : list string)
    (b64decode : string -> option string)
    (read_csv : string -> read_result) (contents filename decoded : string) :
  decoded_payload b64decode contents = Ok decoded ->
  (Py.contains "csv" filename = false ->
     process_data b64decode read_csv contents filename
     = Ok (None, Some unsupported_message)
     /\ forall trigger m hover,
          update_graph palette b64decode read_csv trigger (Some m) hover (Some contents)
            filename
          = Ok (empty_figure, display_none))
  /\ (forall e,
        Py.contains "csv" filename = true -> read_csv decoded = ReadFailed e ->
        process_data b64decode read_csv contents filename = Ok (None, Some e)
        /\ (e <> EmptyString ->
            forall trigger m hover,
              update_graph palette b64decode read_csv trigger (Some m) hover
                (Some contents) filename
              = Ok (empty_figure, display_none))).
Proof.
  intro Hd. split.
  - intro Hname.
    assert (Hp : process_data b64decode read_csv contents filename
                 = Ok (None, Some unsupported_message))
      by (rewrite (process_data_after _ _ _ _ _ Hd), Hname; reflexivity).
    split; [exact Hp |].
    intros trigger m hover. unfold update_graph. rewrite Hp. reflexivity.
  - intros e Hname Hread.
    assert (Hp : process_data b64decode read_csv contents filename = Ok (None, Some e))
      by (rewrite (process_data_after _ _ _ _ _ Hd), Hname, Hread; reflexivity).
    split; [exact Hp |].
    intros He trigger m hover. unfold update_graph. rewrite Hp. simpl.
    destruct (String.eqb_spec e EmptyString) as [E | _]; [contradiction | reflexivity].
Qed.

Lemma read_errors_hide_chart_witness :
  decoded_payload example_b64decode "data:text/csv;base64," = Ok EmptyString
  /\ Py.contains "csv" "race.xlsx" = false
  /\ process_data example_b64decode three_rows "data:text/csv;base64," "race.xlsx"
     = Ok (None, Some unsupported_message)
  /\ update_graph two_colours example_b64decode three_rows visualize_button (Some position)
       None (Some "data:text/csv;base64,") "race.xlsx"
     = Ok (empty_figure, display_none)
  /\ Py.contains "csv" "race.csv" = true
  /\ unreadable EmptyString = ReadFailed "No columns to parse from file"
  /\ update_graph two_colours example_b64decode unreadable visualize_button (Some time_gap)
       None (Some "data:text/csv;base64,") "race.csv"
     = Ok (empty_figure, display_none).
Proof.
  split; [reflexivity |]. split; [reflexivity |].
  split; [exact (proj1 (proj1 (read_errors_hide_chart two_colours example_b64decode
                                 three_rows "data:text/csv;base64," "race.xlsx"
                                 EmptyString eq_refl) eq_refl)) |].
  split; [exact (proj2 (proj1 (read_errors_hide_chart two_colours example_b64decode
                                 three_rows "data:text/csv;base64," "race.xlsx"
                                 EmptyString eq_refl) eq_refl)
                   visualize_button position None) |].
  split; [reflexivity |]. split; [reflexivity |].
  apply (proj2 (proj2 (read_errors_hide_chart two_colours example_b64decode unreadable
                         "data:text/csv;base64," "race.csv" EmptyString eq_refl)
                  "No columns to parse from file" eq_refl eq_refl)).
  discriminate.
Defined.

(** * Further properties of the code *)

(** ** More on [process_data] *)

Lemma apply_raises {A B} (f : A -> result B) (l : list A) :
  raises (apply f l) <-> exists a, In a l /\ raises (f a).
Proof.
  induction l as [| a l IH]; simpl.
  - split; [intros [e He]; discriminate He | intros (a & [] & _)].
  - destruct (f a) as [b | e] eqn:Ea; simpl.
    + destruct (apply f l) as [bs | e'] eqn:El; simpl.
      * split; [intros [e He]; discriminate He |].
        intros (a' & [<- | Hin] & [e He]); [congruence |].
        assert (Hr : raises (Ok (A := list B) bs)) by (apply IH; exists a'; split; [exact Hin | exists e; exact He]).
        destruct Hr as [e' He']. discriminate He'.
      * split; [| intros _; eexists; reflexivity].
        intros _. assert (Hr : raises (Raise (A := list B) e')) by (eexists; reflexivity).
        apply IH in Hr as (a' & Hin & Ha'). exists a'. split; [right; exact Hin | exact Ha'].
    + split; [| intros _; eexists; reflexivity].
      intros _. exists a. split; [left; reflexivity | exists e; exact Ea].
Qed.

Lemma raises_bind {A B} (m : result A) (k : A -> result B) :
  raises (bind m k) <-> raises m \/ exists a, m = Ok a /\ raises (k a).
Proof.
  destruct m as [a | e]; simpl; split.
  - intro H. right. exists a. split; [reflexivity | exact H].
  - intros [[e He] | (a' & Ha' & H)]; [discriminate He |].
    injection Ha' as <-. exact H.
  - intros _. left. eexists; reflexivity.
  - intros _. eexists; reflexivity.
Qed.

Lemma not_raises_ok {A} (a : A) : ~ raises (Ok a).
Proof. intros [e He]. discriminate He. Qed.

Lemma returns_or_raises {A} (m : result A) : returns m \/ raises m.
Proof. destruct m as [a | e]; [left; exists a | right; exists e]; reflexivity. Qed.

Lemma assemble_pointwise (raw : list raw_row) (swim t1 bike t2 run total : list (option Z)) :
  Forall2 (fun l v => time_to_seconds (raw_Swim l) = Ok v) raw swim ->
  Forall2 (fun l v => time_to_seconds (raw_T1 l) = Ok v) raw t1 ->
  Forall2 (fun l v => time_to_seconds (raw_Bike l) = Ok v) raw bike ->
  Forall2 (fun l v => time_to_seconds (raw_T2 l) = Ok v) raw t2 ->
  Forall2 (fun l v => time_to_seconds (raw_Run l) = Ok v) raw run ->
  Forall2 (fun l v => time_to_seconds (raw_Total_Time l) = Ok v) raw total ->
  Forall2 converted_from raw (assemble raw swim t1 bike t2 run total).
Proof.
  unfold assemble.
  intros H1; revert t1 bike t2 run total.
  induction H1 as [| l a raw swim Ha _ IH]; intros t1 bike t2 run total H2 H3 H4 H5 H6.
  - constructor.
  - inversion H2 as [| ? b ? t1' Hb H2']; subst.
    inversion H3 as [| ? c ? bike' Hc H3']; subst.
    inversion H4 as [| ? d ? t2' Hd H4']; subst.
    inversion H5 as [| ? e ? run' He H5']; subst.
    inversion H6 as [| ? f ? total' Hf H6']; subst.
    simpl. constructor; [| apply IH; assumption].
    unfold converted_from, time_cells. simpl.
    rewrite Ha, Hb, Hc, Hd, He, Hf. repeat split.
Qed.

(** X1: a returned table has one row per line of the file, in the order
    of the file, and each row keeps the names of its line; within the
    exact range each row also holds the position of its line and the
    converted value of each of the six time cells. *)
Theorem process_data_keeps_lines (b64decode : string -> option string)
    (read_csv : string -> read_result)
    (contents filename : string) (df : DataFrame) (msg : option string) :
  process_data b64decode read_csv contents filename = Ok (Some df, msg) ->
  exists decoded raw,
    decoded_payload b64decode contents = Ok decoded
    /\ read_csv decoded = ReadOk raw
    /\ length df = length raw
    /\ map athlete_name df
       = map (fun l => raw_First_Name l ++ " " ++ raw_Last_Name l) raw
    /\ (exact_table df -> Forall2 converted_from raw df).
Proof.
  intro H.
  destruct (process_data_decoded _ _ _ _ _ H) as (decoded & Hd).
  rewrite (process_data_after _ read_csv _ filename _ Hd) in H.
  destruct (Py.contains "csv" filename); [| discriminate H].
  destruct (read_csv decoded) as [raw | e] eqn:Hread; [| discriminate H].
  apply bind_ok in H as (swim & Hswim & H).
  apply bind_ok in H as (t1 & Ht1 & H).
  apply bind_ok in H as (bike & Hbike & H).
  apply bind_ok in H as (t2 & Ht2 & H).
  apply bind_ok in H as (run & Hrun & H).
  apply bind_ok in H as (total & Htotal & H).
  injection H as <- _.
  apply apply_pointwise in Hswim, Ht1, Hbike, Ht2, Hrun, Htotal.
  pose proof (assemble_pointwise raw swim t1 bike t2 run total
                Hswim Ht1 Hbike Ht2 Hrun Htotal) as HF.
  exists decoded, raw. split; [exact Hd |]. split; [exact Hread |].
  split; [symmetry; apply (Forall2_length HF) |].
  split; [| intros _; exact HF].
  clear - HF. induction HF as [| l r raw df Hlr _ IH]; [reflexivity |].
  simpl. rewrite IH. f_equal.
  destruct Hlr as (E1 & E2 & _). unfold athlete_name. rewrite E1, E2. reflexivity.
Qed.

Lemma process_data_keeps_lines_witness :
  exact_table (table_of three_rows)
  /\ exists decoded raw,
       decoded_payload example_b64decode "data:text/csv;base64," = Ok decoded
       /\ three_rows decoded = ReadOk raw
       /\ length (table_of three_rows) = length raw
       /\ map athlete_name (table_of three_rows)
          = map (fun l => raw_First_Name l ++ " " ++ raw_Last_Name l) raw
       /\ Forall2 converted_from raw (table_of three_rows).
Proof.
  assert (He : exact_table (table_of three_rows)) by reflexivity.
  split; [exact He |].
  destruct (process_data_keeps_lines example_b64decode three_rows "data:text/csv;base64,"
              "race.csv" (table_of three_rows) None eq_refl)
    as (decoded & raw & H1 & H2 & H3 & H4 & H5).
  exists decoded, raw.
  split; [exact H1 |]. split; [exact H2 |]. split; [exact H3 |]. split; [exact H4 |].
  exact (H5 He).
Defined.

(** X2: on an upload that was decoded and read, [process_data] raises exactly when one
    of the six time cells of some line makes [time_to_seconds] raise - the
    Total Time cell included, though no chart uses it. *)
Theorem process_data_raises_iff (b64decode : string -> option string)
    (read_csv : string -> read_result)
    (contents filename decoded : string) (raw : list raw_row) :
  decoded_payload b64decode contents = Ok decoded ->
  Py.contains "csv" filename = true ->
  read_csv decoded = ReadOk raw ->
  (raises (process_data b64decode read_csv contents filename)
   <-> exists l c, In l raw /\ In c (time_cells l) /\ raises (time_to_seconds c)).
Proof.
  intros Hd Hname Hread.
  rewrite (process_data_after _ read_csv _ filename _ Hd), Hname, Hread.
  assert (Hcol : forall sel : raw_row -> cell,
             raises (apply time_to_seconds (map sel raw))
             <-> exists l, In l raw /\ raises (time_to_seconds (sel l))).
  { intro sel. rewrite apply_raises. split.
    - intros (c & Hc & Hr). apply in_map_iff in Hc as (l & <- & Hl). exists l. auto.
    - intros (l & Hl & Hr). exists (sel l). split; [apply in_map, Hl | exact Hr]. }
  split.
  - intro H.
    repeat (apply raises_bind in H as [H | (? & _ & H)];
            [apply Hcol in H as (l & Hl & Hr); exists l; eexists;
             (split; [exact Hl | split; [| exact Hr]]); simpl; auto 7 |]).
    contradiction (not_raises_ok _ H).
  - intros (l & c & Hl & Hc & Hr).
    assert (Hsome : exists sel, In sel [raw_Swim; raw_T1; raw_Bike; raw_T2; raw_Run;
                                        raw_Total_Time]
                                /\ raises (apply time_to_seconds (map sel raw))).
    { simpl in Hc.
      destruct Hc as [<- | [<- | [<- | [<- | [<- | [<- | []]]]]]];
        eexists; (split; [| apply Hcol; exists l; split; [exact Hl | exact Hr]]);
        simpl; auto 7. }
    destruct Hsome as (sel & Hsel & Hraise).
    destruct (returns_or_raises (apply time_to_seconds (map raw_Swim raw))) as [[? E1] | R1];
      [rewrite E1; simpl | apply raises_bind; left; exact R1].
    destruct (returns_or_raises (apply time_to_seconds (map raw_T1 raw))) as [[? E2] | R2];
      [rewrite E2; simpl | apply raises_bind; left; exact R2].
    destruct (returns_or_raises (apply time_to_seconds (map raw_Bike raw))) as [[? E3] | R3];
      [rewrite E3; simpl | apply raises_bind; left; exact R3].
    destruct (returns_or_raises (apply time_to_seconds (map raw_T2 raw))) as [[? E4] | R4];
      [rewrite E4; simpl | apply raises_bind; left; exact R4].
    destruct (returns_or_raises (apply time_to_seconds (map raw_Run raw))) as [[? E5] | R5];
      [rewrite E5; simpl | apply raises_bind; left; exact R5].
    destruct (returns_or_raises (apply time_to_seconds (map raw_Total_Time raw)))
      as [[? E6] | R6];
      [rewrite E6; simpl | apply raises_bind; left; exact R6].
    exfalso. simpl in Hsel.
    destruct Hsel as [<- | [<- | [<- | [<- | [<- | [<- | []]]]]]];
      destruct Hraise as [e He]; congruence.
Qed.

Lemma process_data_raises_iff_witness :
  Py.contains "csv" "race.csv" = true
  /\ raises (process_data example_b64decode bad_swim "data:text/csv;base64," "race.csv").
Proof.
  split; [reflexivity |].
  apply (proj2 (process_data_raises_iff example_b64decode bad_swim "data:text/csv;base64,"
                  "race.csv" EmptyString
                  [line "Gus" "Gray" (Some 1) "abc" "01:00" "30:00" "00:50" "20:00" "1:00:00"]
                  eq_refl eq_refl eq_refl)).
  exists (line "Gus" "Gray" (Some 1) "abc" "01:00" "30:00" "00:50" "20:00" "1:00:00").
  exists (CStr "abc").
  split; [left; reflexivity |]. split; [left; reflexivity |].
  exists (ValueError "abc"). reflexivity.
Defined.

Lemma process_data_returns (b64decode : string -> option string)
    (read_csv : string -> read_result)
    (contents filename : string) (df : option DataFrame) (msg : option string) :
  process_data b64decode read_csv contents filename = Ok (df, msg) ->
  exists decoded,
    decoded_payload b64decode contents = Ok decoded
    /\ ((exists d raw, df = Some d /\ msg = None
                       /\ Py.contains "csv" filename = true /\ read_csv decoded = ReadOk raw)
        \/ (df = None /\ msg = Some unsupported_message
            /\ Py.contains "csv" filename = false)
        \/ (exists e, df = None /\ msg = Some e
                      /\ Py.contains "csv" filename = true
                      /\ read_csv decoded = ReadFailed e)).
Proof.
  intro H.
  destruct (process_data_decoded _ _ _ _ _ H) as (decoded & Hd).
  rewrite (process_data_after _ read_csv _ filename _ Hd) in H.
  exists decoded. split; [exact Hd |].
  destruct (Py.contains "csv" filename).
  - destruct (read_csv decoded) as [raw | e].
    + apply bind_ok in H as (swim & _ & H). apply bind_ok in H as (t1 & _ & H).
      apply bind_ok in H as (bike & _ & H). apply bind_ok in H as (t2 & _ & H).
      apply bind_ok in H as (run & _ & H). apply bind_ok in H as (total & _ & H).
      injection H as <- <-. left. eexists; exists raw. repeat split.
    + injection H as <- <-. right; right. exists e. repeat split.
  - injection H as <- <-. right; left. repeat split.
Qed.

(** X3: what [process_data] returns is a table without a message or a
    message without a table, never both and never neither; the message is
    the unsupported-file-type text when the name lacks "csv" and the text
    of the read error otherwise.  It returns only for contents that
    unpack and decode. *)
Theorem process_data_table_or_message (b64decode : string -> option string)
    (read_csv : string -> read_result)
    (contents filename : string) (df : option DataFrame) (msg : option string) :
  process_data b64decode read_csv contents filename = Ok (df, msg) ->
  exists decoded,
    decoded_payload b64decode contents = Ok decoded
    /\ ((exists d raw, df = Some d /\ msg = None
                       /\ Py.contains "csv" filename = true /\ read_csv decoded = ReadOk raw)
        \/ (df = None /\ msg = Some unsupported_message
            /\ Py.contains "csv" filename = false)
        \/ (exists e, df = None /\ msg = Some e
                      /\ Py.contains "csv" filename = true
                      /\ read_csv decoded = ReadFailed e)).
Proof. exact (process_data_returns b64decode read_csv contents filename df msg). Qed.

Lemma process_data_table_or_message_witness :
  exists decoded,
    decoded_payload example_b64decode "data:text/csv;base64," = Ok decoded
    /\ ((exists d raw, Some (table_of three_rows) = Some d /\ @None string = None
                       /\ Py.contains "csv" "race.csv" = true
                       /\ three_rows decoded = ReadOk raw)
        \/ (Some (table_of three_rows) = None /\ None = Some unsupported_message
            /\ Py.contains "csv" "race.csv" = false)
        \/ (exists e, Some (table_of three_rows) = None /\ None = Some e
                      /\ Py.contains "csv" "race.csv" = true
                      /\ three_rows decoded = ReadFailed e)).
Proof.
  exact (process_data_table_or_message example_b64decode three_rows
           "data:text/csv;base64," "race.csv" (Some (table_of three_rows)) None eq_refl).
Defined.

Lemma apply_numbers (col : list cell) :
  Forall (fun c => is_text c = false) col ->
  Exists (fun c => is_number c = true) col ->
  apply time_to_seconds col = Raise AttributeError.
Proof.
  induction col as [| c col IH]; intros Hall Hex; [inversion Hex |].
  inversion_clear Hall as [| ? ? Hc Hall'].
  destruct c as [| s | n]; simpl in *; [| discriminate Hc | reflexivity].
  rewrite IH; [reflexivity | exact Hall' |].
  inversion Hex as [? ? H | ? ? H]; subst; [discriminate H | exact H].
Qed.

(** X4: when the Swim column holds no text but at least one number (what
    [read_csv] delivers for a column of bare seconds), [process_data]
    raises [AttributeError]: [time_to_seconds] calls [split] on a
    number. *)
Theorem numeric_column_raises (b64decode : string -> option string)
    (read_csv : string -> read_result)
    (contents filename decoded : string) (raw : list raw_row) :
  decoded_payload b64decode contents = Ok decoded ->
  Py.contains "csv" filename = true ->
  read_csv decoded = ReadOk raw ->
  Forall (fun l => is_text (raw_Swim l) = false) raw ->
  Exists (fun l => is_number (raw_Swim l) = true) raw ->
  process_data b64decode read_csv contents filename = Raise AttributeError.
Proof.
  intros Hd Hname Hread Hall Hex.
  rewrite (process_data_after _ read_csv _ filename _ Hd), Hname, Hread.
  rewrite apply_numbers; [reflexivity | |].
  - apply Forall_map. exact Hall.
  - apply Exists_map. exact Hex.
Qed.

Lemma numeric_column_raises_witness :
  process_data example_b64decode
    (fun _ => ReadOk [mk_raw "Hal" "Hunt" (Some 1) (CNum 600) (CStr "01:00") (CStr "30:00")
                        (CStr "00:50") (CStr "20:00") (CStr "1:01:50")])
    "data:text/csv;base64," "race.csv"
  = Raise AttributeError.
Proof.
  apply (numeric_column_raises example_b64decode _ "data:text/csv;base64," "race.csv"
           EmptyString
           [mk_raw "Hal" "Hunt" (Some 1) (CNum 600) (CStr "01:00") (CStr "30:00")
              (CStr "00:50") (CStr "20:00") (CStr "1:01:50")]);
    [reflexivity | reflexivity | reflexivity | repeat constructor | left; reflexivity].
Defined.

(** ** More on [time_to_seconds] *)

Lemma convert_never_none (m : result Z) (k : Z -> Z) :
  (n <- m ;; Ok (Some (k n))) <> Ok None.
Proof. destruct m; simpl; discriminate. Qed.

(** X5: [time_to_seconds] answers "no data" for a missing value and for
    the exact text "00:00:00" and for nothing else: every other spelling
    of a zero time is a number, every other text a number or an error. *)
Theorem no_data_iff (c : cell) :
  time_to_seconds c = Ok None <-> c = CNaN \/ c = CStr "00:00:00".
Proof.
  split.
  - destruct c as [| s | n]; [left; reflexivity | | discriminate].
    destruct (String.eqb_spec s "00:00:00") as [-> | Hs]; [right; reflexivity |].
    rewrite (time_to_seconds_text s Hs). intro H. exfalso.
    destruct (Py.split ":" s) as [| p1 [| p2 [| p3 [| p4 rest]]]]; simpl hd in H.
    + destruct (int_or_raise EmptyString); discriminate H.
    + destruct (int_or_raise p1); discriminate H.
    + destruct (int_or_raise p1); [| discriminate H].
      destruct (int_or_raise p2); discriminate H.
    + destruct (int_or_raise p1); [| discriminate H].
      destruct (int_or_raise p2); [| discriminate H].
      destruct (int_or_raise p3); discriminate H.
    + destruct (int_or_raise p1); discriminate H.
  - intros [-> | ->]; reflexivity.
Qed.

Lemma digit_not_colon (c : ascii) : is_digit c = true -> Ascii.eqb c ":" = false.
Proof.
  destruct c as [[] [] [] [] [] [] [] []]; vm_compute; intro H;
    try discriminate H; reflexivity.
Qed.

Lemma split_digits (s : string) : all_digits s = true -> Py.split ":" s = [s].
Proof.
  induction s as [| c t IH]; simpl; [reflexivity |].
  intro H. apply andb_prop in H as [Hc Ht].
  rewrite (digit_not_colon c Hc), (IH Ht). reflexivity.
Qed.

Lemma int_digit_string_signed (s : string) :
  digit_string s ->
  exists n, 0 <= n /\ Py.int s = Some n /\ Py.int (String "-" s) = Some (- n)
            /\ Py.int (String "+" s) = Some n.
Proof.
  intros (Hne & Hall & Hlen).
  destruct s as [| c t]; [contradiction Hne; reflexivity |].
  pose proof (digit_count_all _ Hall) as Hcount.
  assert (Hcap : (Py.digit_count (String c t) <= Py.max_str_digits)%nat)
    by (rewrite Hcount; exact Hlen).
  simpl in Hall. apply andb_prop in Hall as [Hc Ht].
  destruct (int_literal_digits c t Hc Ht) as (n & Hpos & Hn & Hneg & Hplus).
  exists n. split; [exact Hpos |].
  split; [rewrite int_under_cap; [exact Hn | exact Hcap] |].
  split; (rewrite int_under_cap; [assumption | exact Hcap]).
Qed.

(** X6: a minus sign before a run of digits (of at most the 4300 digits
    that [int] accepts) is accepted: the text is one part, [int] reads
    the sign, and the duration returned is the negated value, so
    [time_to_seconds] can return a negative number of seconds. *)
Theorem signed_seconds_accepted (p : string) :
  digit_string p ->
  exists n, 0 <= n
            /\ time_to_seconds (CStr p) = Ok (Some n)
            /\ time_to_seconds (CStr (String "-" p)) = Ok (Some (- n)).
Proof.
  intro Hp.
  destruct (int_digit_string_signed p Hp) as (n & Hpos & Hn & Hneg & _).
  pose proof (split_digits p (proj1 (proj2 Hp))) as Hsplit.
  exists n. split; [exact Hpos |]. split.
  - assert (Hs : p <> "00:00:00") by (intros ->; discriminate Hsplit).
    rewrite (time_to_seconds_text p Hs), Hsplit. simpl.
    rewrite (int_or_raise_ok p n Hn). reflexivity.
  - assert (Hs : String "-" p <> "00:00:00") by discriminate.
    rewrite (time_to_seconds_text _ Hs). simpl. rewrite Hsplit. simpl.
    rewrite (int_or_raise_ok _ _ Hneg). reflexivity.
Qed.

Lemma signed_seconds_accepted_witness :
  digit_string "45"
  /\ exists n, 0 <= n
               /\ time_to_seconds (CStr "45") = Ok (Some n)
               /\ time_to_seconds (CStr "-45") = Ok (Some (- n)).
Proof.
  assert (H : digit_string "45") by (apply digit_string_check; reflexivity).
  split; [exact H | exact (signed_seconds_accepted "45" H)].
Defined.

(** ** More on the cumulative columns *)

(** X7: in a returned table within the exact range the cumulative value
    of a segment is present exactly when the durations of that segment
    and of all segments before it are present, and it is then their sum;
    the cumulative Run value is the sum of the five durations, whatever
    the Total Time column says. *)
Theorem cumulative_is_prefix_sum (b64decode : string -> option string)
    (read_csv : string -> read_result)
    (contents filename : string) (df : DataFrame) (msg : option string)
    (r : row) (seg : segment) (v : Z) :
  process_data b64decode read_csv contents filename = Ok (Some df, msg) ->
  exact_table df ->
  In r df ->
  (cumulative seg r = Some v
   <-> exists ds, map (fun s => duration s r) (up_to seg) = map Some ds /\ v = seconds_sum ds).
Proof.
  intros H _ Hin.
  pose proof (process_data_built b64decode read_csv contents filename df msg r H Hin) as Hb.
  destruct (built_equations r Hb) as (E0 & E1 & E2 & E3 & E4).
  split.
  - intro Hv.
    exists (map (fun s => match duration s r with Some d => d | None => 0 end) (up_to seg)).
    destruct seg; simpl in *; rewrite ?E4, ?E3, ?E2, ?E1, ?E0 in Hv;
      destruct (Swim r) as [d0 |], (T1 r) as [d1 |], (Bike r) as [d2 |],
               (T2 r) as [d3 |], (Run r) as [d4 |];
      simpl in Hv; try discriminate Hv; injection Hv as <-;
      (split; [reflexivity | unfold seconds_sum; simpl; lia]).
  - intros (ds & Hds & ->).
    destruct seg; simpl in *; rewrite ?E4, ?E3, ?E2, ?E1, ?E0;
      destruct ds as [| d0 [| d1 [| d2 [| d3 [| d4 [| d5 ds]]]]]]; try discriminate Hds;
      injection Hds as ?; subst;
      repeat match goal with H : _ = Some _ |- _ => rewrite H end;
      simpl; f_equal; unfold seconds_sum; simpl; lia.
Qed.

Lemma cumulative_is_prefix_sum_witness :
  exact_table (table_of three_rows)
  /\ exists r,
       In r (table_of three_rows)
       /\ cumulative seg_Run r = Some 3710
       /\ exists ds, map (fun s => duration s r) (up_to seg_Run) = map Some ds
                     /\ 3710 = seconds_sum ds.
Proof.
  assert (He : exact_table (table_of three_rows)) by reflexivity.
  split; [exact He |].
  exists (with_cumulative ann (Some 600) (Some 60) (Some 1800) (Some 50) (Some 1200)
            (Some 3710)).
  assert (Hin : In (with_cumulative ann (Some 600) (Some 60) (Some 1800) (Some 50)
                      (Some 1200) (Some 3710))
                   (table_of three_rows))
    by (left; reflexivity).
  split; [exact Hin |]. split; [reflexivity |].
  exact (proj1 (cumulative_is_prefix_sum example_b64decode three_rows
                  "data:text/csv;base64," "race.csv" (table_of three_rows) None _ seg_Run
                  3710 eq_refl He Hin) eq_refl).
Defined.

(** ** More on [update_graph] *)

(** X8: whatever [update_graph] returns is either the empty figure with
    the chart area hidden, or a visible chart; a visible chart is only
    returned on a click on Visualize or on a hover over the plot, with a
    file and a mode present, and is then the figure that [create_figure]
    builds from the table [process_data] has just returned from that
    file.  A change of mode alone, or the first call, never shows a
    chart. *)
Theorem update_graph_outcome (palette : list string) (b64decode : string -> option string)
    (read_csv : string -> read_result)
    (triggered_id : component) (calculation_mode : option mode)
    (hoverData contents : option string) (filename : string)
    (fig : figure) (st : style) :
  update_graph palette b64decode read_csv triggered_id calculation_mode hoverData contents filename
  = Ok (fig, st) ->
  (st = display_none /\ fig = empty_figure)
  \/ (st = display_block
      /\ exists c m df hovered,
           contents = Some c /\ calculation_mode = Some m
           /\ process_data b64decode read_csv c filename = Ok (Some df, None)
           /\ requested_highlight triggered_id hoverData = Some hovered
           /\ fig = create_figure palette df m filename hovered).
Proof.
  unfold update_graph.
  destruct contents as [c |]; [| intro H; injection H as <- <-; left; split; reflexivity].
  destruct calculation_mode as [m |];
    [| intro H; injection H as <- <-; left; split; reflexivity].
  destruct (process_data b64decode read_csv c filename) as [[df msg] | e] eqn:Hp; simpl;
    [| discriminate].
  destruct (process_data_returns b64decode read_csv c filename df msg Hp)
    as (decoded & _ & [(d & raw & -> & -> & _) | [(-> & -> & _) | (e & -> & -> & _)]]).
  - destruct triggered_id; try destruct hoverData as [point_text |];
      intro H; injection H as <- <-;
      try (left; split; reflexivity);
      right; (split; [reflexivity |]); exists c, m, d; eexists;
      (split; [reflexivity |]); (split; [reflexivity |]); (split; [exact Hp |]);
      split; reflexivity.
  - simpl. intro H; injection H as <- <-. left; split; reflexivity.
  - destruct (negb (e =? "")%string).
    + intro H; injection H as <- <-. left; split; reflexivity.
    + destruct triggered_id; try destruct hoverData as [point_text |];
        intro H; try discriminate H; injection H as <- <-; left; split; reflexivity.
Qed.

Lemma update_graph_outcome_witness :
  exists fig,
    update_graph two_colours example_b64decode three_rows visualize_button (Some time_gap) None
      (Some "data:text/csv;base64,") "race.csv" = Ok (fig, display_block)
    /\ ((display_block = display_none /\ fig = empty_figure)
        \/ (display_block = display_block
            /\ exists c m df hovered,
                 Some "data:text/csv;base64," = Some c /\ Some time_gap = Some m
                 /\ process_data example_b64decode three_rows c "race.csv" = Ok (Some df, None)
                 /\ requested_highlight visualize_button None = Some hovered
                 /\ fig = create_figure two_colours df m "race.csv" hovered)).
Proof.
  exists (create_figure two_colours (table_of three_rows) time_gap "race.csv" None).
  split; [reflexivity |].
  exact (update_graph_outcome two_colours example_b64decode three_rows visualize_button (Some time_gap) None
           (Some "data:text/csv;base64,") "race.csv" _ display_block eq_refl).
Defined.

Lemma both_present {A B} (a : A) (b : B) (Q : A -> Prop) :
  (exists a' b', Some a = Some a' /\ Some b = Some b' /\ Q a') <-> Q a.
Proof.
  split.
  - intros (a' & b' & Ha & _ & H). injection Ha as <-. exact H.
  - intro H. exists a, b. auto.
Qed.

(** X9: [update_graph] raises exactly when a file and a mode are present
    and either [process_data] raises on the file - on every trigger, a
    change of mode or a hover included - or a read error with an empty
    text is followed by a request for a chart: the empty message counts
    as no error and [create_figure] is called on no table. *)
Theorem update_graph_raises_iff (palette : list string) (b64decode : string -> option string)
    (read_csv : string -> read_result)
    (triggered_id : component) (calculation_mode : option mode)
    (hoverData contents : option string) (filename : string) :
  raises (update_graph palette b64decode read_csv triggered_id calculation_mode hoverData contents
            filename)
  <-> exists c m,
        contents = Some c /\ calculation_mode = Some m
        /\ (raises (process_data b64decode read_csv c filename)
            \/ (process_data b64decode read_csv c filename = Ok (None, Some EmptyString)
                /\ requested_highlight triggered_id hoverData <> None)).
Proof.
  unfold update_graph.
  destruct contents as [c |];
    [| split; [intro H; contradiction (not_raises_ok _ H)
              | intros (c & m & Hc & _); discriminate Hc]].
  destruct calculation_mode as [m |];
    [| split; [intro H; contradiction (not_raises_ok _ H)
              | intros (c' & m & _ & Hm & _); discriminate Hm]].
  etransitivity;
    [| symmetry;
       apply (both_present c m
                (fun c0 => raises (process_data b64decode read_csv c0 filename)
                           \/ (process_data b64decode read_csv c0 filename = Ok (None, Some EmptyString)
                               /\ requested_highlight triggered_id hoverData <> None)))].
  destruct (process_data b64decode read_csv c filename) as [[df msg] | e] eqn:Hp; simpl.
  - destruct (process_data_returns b64decode read_csv c filename df msg Hp)
      as (decoded & _ & [(d & raw & -> & -> & _) | [(-> & -> & _) | (e & -> & -> & _)]]).
    + split.
      * intro H. exfalso.
        destruct triggered_id; try destruct hoverData; contradiction (not_raises_ok _ H).
      * intros [H | [H _]]; [contradiction (not_raises_ok _ H) | discriminate H].
    + simpl. split; [intro H; contradiction (not_raises_ok _ H) |].
      intros [H | [H _]]; [contradiction (not_raises_ok _ H) | discriminate H].
    + destruct (String.eqb_spec e EmptyString) as [-> | He]; simpl.
      * split.
        -- intro H. right. split; [reflexivity |].
           destruct triggered_id; try destruct hoverData; simpl;
             try discriminate; contradiction (not_raises_ok _ H).
        -- intros [H | [_ H]]; [contradiction (not_raises_ok _ H) |].
           destruct triggered_id; try destruct hoverData; simpl in H;
             try (contradiction H; reflexivity); eexists; reflexivity.
      * split; [intro H; contradiction (not_raises_ok _ H) |].
        intros [H | [H _]];
          [contradiction (not_raises_ok _ H) | injection H as H; contradiction He].
  - split; [| intros _; eexists; reflexivity].
    intros _. left. eexists; reflexivity.
Qed.

Lemma update_graph_raises_iff_witness :
  raises (update_graph two_colours example_b64decode bad_swim calculation_mode_radio (Some position) None
            (Some "data:text/csv;base64,") "race.csv").
Proof.
  apply (proj2 (update_graph_raises_iff two_colours example_b64decode bad_swim calculation_mode_radio
                  (Some position) None (Some "data:text/csv;base64,") "race.csv")).
  exists "data:text/csv;base64,", position.
  split; [reflexivity |]. split; [reflexivity |].
  left. exists (ValueError "abc"). reflexivity.
Defined.

(** ** The hover round trip *)

Lemma prefix_step (a b : ascii) (s1 s2 : string) :
  String.prefix (String a s1) (String b s2)
  = if ascii_dec a b then String.prefix s1 s2 else false.
Proof. reflexivity. Qed.

Lemma br_not_astride (c : ascii) (t rest : string) :
  String.prefix "<br>" (String c t) = false ->
  String.prefix "<br>" (String c (t ++ "<br>" ++ rest)) = false.
Proof.
  intro H. rewrite prefix_step in H |- *.
  destruct (ascii_dec "<" c) as [_ | _]; [| reflexivity].
  destruct t as [| c2 t2]; [reflexivity |].
  cbn [String.append]. rewrite prefix_step in H |- *.
  destruct (ascii_dec "b" c2) as [_ | _]; [| reflexivity].
  destruct t2 as [| c3 t3]; [reflexivity |].
  cbn [String.append]. rewrite prefix_step in H |- *.
  destruct (ascii_dec "r" c3) as [_ | _]; [| reflexivity].
  destruct t3 as [| c4 t4]; [reflexivity |].
  cbn [String.append]. rewrite prefix_step in H |- *.
  destruct (ascii_dec ">" c4) as [_ | _]; [| reflexivity].
  destruct t4; discriminate H.
Qed.

Lemma before_br (n rest : string) :
  Py.contains "<br>" n = false ->
  Py.before "<br>" (n ++ "<br>" ++ rest) = n.
Proof.
  induction n as [| c t IH]; intro H; [destruct rest; reflexivity |].
  unfold Py.contains in H; fold Py.contains in H.
  apply orb_false_elim in H as [Hp Ht].
  change (String c t ++ "<br>" ++ rest) with (String c (t ++ "<br>" ++ rest)).
  unfold Py.before; fold Py.before.
  rewrite (br_not_astride c t rest Hp). f_equal. apply IH, Ht.
Qed.

Lemma hover_text_in (n y_axis_title label : string) (ys : list Z) :
  In label (hover_text n y_axis_title ys) ->
  exists rest, label = n ++ "<br>" ++ rest.
Proof.
  unfold hover_text. intro H.
  apply in_map_iff in H as ([seg yv] & <- & _).
  exists ("Segment: " ++ seg ++ "<br>" ++ y_axis_title ++ ": " ++ Py.format_0f yv).
  reflexivity.
Qed.

Lemma athlete_trace_text (palette : list string) (m : mode) (max_rank : option Z)
    (y_axis_title : string) (h : option string) (i : nat) (v : view_row) :
  text (athlete_trace palette m max_rank y_axis_title h i v)
  = hover_text (name (athlete_trace palette m max_rank y_axis_title h i v)) y_axis_title
      (y (athlete_trace palette m max_rank y_axis_title h i v)).
Proof.
  unfold athlete_trace.
  destruct (walk (derived v) segments (tl x_values)) as [ys axs].
  destruct m; [destruct (_ <? _)%nat |]; reflexivity.
Qed.

Lemma create_figure_labels (palette : list string) (df : DataFrame) (m : mode)
    (filename : string) (h : option string) (t : trace) (label : string) :
  In t (data (create_figure palette df m filename h)) ->
  In label (text t) ->
  exists rest, label = name t ++ "<br>" ++ rest.
Proof.
  unfold create_figure. destruct m; simpl; intros H Hl;
    apply traces_from_in in H as (j & v & _ & ->);
    rewrite athlete_trace_text in Hl; apply hover_text_in in Hl; exact Hl.
Qed.

(** X10: the hover round trip.  Every hover label of a line starts with
    the name of the line followed by [<br>], and [update_graph] reads the
    name back from the label: a hover over any point of a line whose name
    does not contain [<br>] redraws the same table with exactly that name
    highlighted. *)
Theorem hover_highlights_line (palette : list string) (b64decode : string -> option string)
    (read_csv : string -> read_result)
    (c filename : string) (m : mode) (df : DataFrame) (msg : option string)
    (h : option string) (t : trace) (label : string) :
  process_data b64decode read_csv c filename = Ok (Some df, msg) ->
  In t (data (create_figure palette df m filename h)) ->
  In label (text t) ->
  Py.contains "<br>" (name t) = false ->
  Py.before "<br>" label = name t
  /\ update_graph palette b64decode read_csv race_plot (Some m) (Some label) (Some c) filename
     = Ok (create_figure palette df m filename (Some (name t)), display_block).
Proof.
  intros Hp Ht Hl Hn.
  destruct (create_figure_labels palette df m filename h t label Ht Hl) as (rest & ->).
  pose proof (before_br (name t) rest Hn) as Hb.
  split; [exact Hb |].
  destruct (process_data_returns b64decode read_csv c filename (Some df) msg Hp)
    as (decoded & _ & [(d & raw & _ & -> & _) | [(E & _) | (e & E & _)]]);
    try discriminate E.
  unfold update_graph. rewrite Hp. unfold bind. cbv beta iota zeta.
  rewrite Hb. reflexivity.
Qed.

Lemma hover_highlights_line_witness :
  Py.before "<br>" "Bob Birk<br>Segment: T1<br>Rank: 3" = "Bob Birk"
  /\ update_graph two_colours example_b64decode three_rows race_plot (Some position)
       (Some "Bob Birk<br>Segment: T1<br>Rank: 3") (Some "data:text/csv;base64,") "race.csv"
     = Ok (create_figure two_colours (table_of three_rows) position "race.csv"
             (Some "Bob Birk"), display_block).
Proof.
  assert (Ht : In (nth 1 (data (create_figure two_colours (table_of three_rows) position
                                  "race.csv" None))
                       (mk_trace [] [] EmptyString [] EmptyString 0%Q))
                  (data (create_figure two_colours (table_of three_rows) position
                           "race.csv" None)))
    by (right; left; reflexivity).
  assert (Hl : In "Bob Birk<br>Segment: T1<br>Rank: 3"
                  (text (nth 1 (data (create_figure two_colours (table_of three_rows)
                                        position "race.csv" None))
                             (mk_trace [] [] EmptyString [] EmptyString 0%Q))))
    by (right; right; left; reflexivity).
  exact (hover_highlights_line two_colours example_b64decode three_rows "data:text/csv;base64," "race.csv"
           position (table_of three_rows) None None _ _ eq_refl Ht Hl eq_refl).
Defined.

(** ** More on [create_figure] *)

Lemma position_le_total (a b : option Z) :
  position_le a b = false -> position_le b a = true.
Proof.
  destruct a as [x |], b as [y |]; simpl; try discriminate; try reflexivity.
  intro H. apply Z.leb_gt in H. apply Z.leb_le. lia.
Qed.

Lemma position_le_trans (a b c : option Z) :
  position_le a b = true -> position_le b c = true -> position_le a c = true.
Proof.
  destruct a as [x |], b as [y |], c as [z |]; simpl; try discriminate; try reflexivity.
  intros H1 H2. apply Z.leb_le in H1. apply Z.leb_le in H2. apply Z.leb_le. lia.
Qed.

Lemma insert_by_position_perm (v : view_row) (l : list view_row) :
  Permutation (v :: l) (insert_by_position v l).
Proof.
  induction l as [| u l IH]; simpl; [apply Permutation_refl |].
  destruct (position_le (Position (athlete v)) (Position (athlete u)));
    [apply Permutation_refl |].
  apply perm_trans with (u :: v :: l); [apply perm_swap | apply perm_skip, IH].
Qed.

Lemma sort_values_perm (l : list view_row) : Permutation l (sort_values l).
Proof.
  unfold sort_values. induction l as [| v l IH]; simpl; [apply perm_nil |].
  apply perm_trans with (v :: fold_right insert_by_position [] l);
    [apply perm_skip, IH | apply insert_by_position_perm].
Qed.

Lemma insert_by_position_sorted (v : view_row) (l : list view_row) :
  StronglySorted by_position l -> StronglySorted by_position (insert_by_position v l).
Proof.
  induction l as [| u l IH]; simpl; intro H.
  - constructor; [constructor | constructor].
  - inversion_clear H as [| ? ? Hl Hu].
    destruct (position_le (Position (athlete v)) (Position (athlete u))) eqn:E.
    + constructor; [constructor; assumption |].
      constructor; [exact E |].
      apply Forall_forall. intros w Hw.
      apply (position_le_trans _ (Position (athlete u))); [exact E |].
      exact (proj1 (Forall_forall _ _) Hu w Hw).
    + constructor; [apply IH, Hl |].
      apply Forall_forall. intros w Hw.
      apply insert_by_position_in in Hw as [-> | Hw].
      * apply position_le_total, E.
      * exact (proj1 (Forall_forall _ _) Hu w Hw).
Qed.

Lemma sort_values_sorted (l : list view_row) : StronglySorted by_position (sort_values l).
Proof.
  unfold sort_values. induction l as [| v l IH]; simpl; [constructor |].
  apply insert_by_position_sorted, IH.
Qed.

Lemma sorted_rows (l : list view_row) :
  StronglySorted by_position l -> StronglySorted rows_by_position (map athlete l).
Proof.
  induction 1 as [| v l _ IH Hv]; simpl; constructor; [exact IH |].
  apply Forall_forall. intros r Hr. apply in_map_iff in Hr as (w & <- & Hw).
  exact (proj1 (Forall_forall _ _) Hv w Hw).
Qed.

Lemma filter_map_athlete (p : row -> bool) (view : list view_row) :
  map athlete (filter (fun v => p (athlete v)) view) = filter p (map athlete view).
Proof.
  induction view as [| v view IH]; simpl; [reflexivity |].
  destruct (p (athlete v)); simpl; rewrite IH; reflexivity.
Qed.

Lemma athletes_of_rank_view (df : DataFrame) : map athlete (add_rank_columns df) = df.
Proof.
  unfold add_rank_columns. rewrite map_map. simpl. apply map_id.
Qed.

Lemma athletes_of_gap_view (df : DataFrame) : map athlete (add_gap_columns df) = df.
Proof.
  unfold add_gap_columns. rewrite map_map. simpl. apply map_id.
Qed.

(** X11: the lines of a chart are the athletes that its mode draws - all
    athletes of the table in the rank view, the athletes with a cumulative
    Run value in the gap view - each exactly once, in ascending order of
    Position with the athletes without a position last. *)
Theorem lines_in_position_order (palette : list string) (df : DataFrame) (m : mode)
    (filename : string) (h : option string) :
  exists rows,
    Permutation (drawn m df) rows
    /\ StronglySorted rows_by_position rows
    /\ map name (data (create_figure palette df m filename h)) = map athlete_name rows
    /\ length (data (create_figure palette df m filename h)) = length (drawn m df).
Proof.
  destruct m.
  - exists (map athlete (sort_values (add_rank_columns df))).
    assert (HP : Permutation (drawn position df)
                   (map athlete (sort_values (add_rank_columns df)))).
    { simpl. rewrite <- (athletes_of_rank_view df) at 1.
      apply Permutation_map, sort_values_perm. }
    split; [exact HP |].
    split; [apply sorted_rows, sort_values_sorted |].
    split; [rewrite position_lines_all, map_map; reflexivity |].
    rewrite <- (length_map name), position_lines_all, length_map.
    rewrite (Permutation_length HP), length_map. reflexivity.
  - exists (map athlete
              (sort_values (filter (fun v => present (Run_Cum (athlete v)))
                              (add_gap_columns df)))).
    assert (HP : Permutation (drawn time_gap df)
                   (map athlete
                      (sort_values (filter (fun v => present (Run_Cum (athlete v)))
                                      (add_gap_columns df))))).
    { simpl. rewrite <- (athletes_of_gap_view df) at 1.
      rewrite <- (filter_map_athlete (fun r => present (Run_Cum r))).
      apply Permutation_map, sort_values_perm. }
    split; [exact HP |].
    split; [apply sorted_rows, sort_values_sorted |].
    split; [rewrite gap_lines_have_run, map_map; reflexivity |].
    rewrite <- (length_map name), gap_lines_have_run, length_map.
    rewrite (Permutation_length HP), length_map. reflexivity.
Qed.

Lemma traces_from_nth (palette : list string) (m : mode) (max_rank : option Z)
    (y_axis_title : string) (h : option string) (view : list view_row) :
  forall i k t,
    nth_error (traces_from palette m max_rank y_axis_title h i view) k = Some t ->
    exists v, nth_error view k = Some v
              /\ t = athlete_trace palette m max_rank y_axis_title h (i + k) v.
Proof.
  induction view as [| u view IH]; intros i k t H.
  - destruct k; discriminate H.
  - destruct k as [| k]; simpl in H.
    + injection H as <-. exists u. rewrite Nat.add_0_r. split; reflexivity.
    + destruct (IH (S i) k t H) as (v & Hv & ->).
      exists v. split; [exact Hv |]. f_equal. lia.
Qed.

Lemma athlete_trace_color (palette : list string) (m : mode) (max_rank : option Z)
    (y_axis_title : string) (h : option string) (i : nat) (v : view_row) :
  color (athlete_trace palette m max_rank y_axis_title h i v)
  = nth (i mod length palette) palette EmptyString.
Proof.
  unfold athlete_trace.
  destruct (walk (derived v) segments (tl x_values)) as [ys axs].
  destruct m; [destruct (_ <? _)%nat |]; reflexivity.
Qed.

(** X12: colours go round the palette in drawing order: the line drawn
    in place [k] has the colour in place [k mod n] of a palette of [n]
    colours, so the lines in places [k] and [k + n] share a colour and
    with more athletes than colours two lines look alike. *)
Theorem colours_cycle (palette : list string) (df : DataFrame) (m : mode)
    (filename : string) (h : option string) (k : nat) (t : trace) :
  palette <> [] ->
  nth_error (data (create_figure palette df m filename h)) k = Some t ->
  color t = nth (k mod length palette) palette EmptyString
  /\ forall t', nth_error (data (create_figure palette df m filename h))
                  (k + length palette) = Some t' ->
                color t' = color t.
Proof.
  assert (Hc : forall j u, nth_error (data (create_figure palette df m filename h)) j = Some u ->
                           color u = nth (j mod length palette) palette EmptyString).
  { intros j u Hu. unfold create_figure in Hu. destruct m; simpl in Hu;
      apply traces_from_nth in Hu as (v & _ & ->); apply athlete_trace_color. }
  intros _ Ht. split; [apply Hc, Ht |].
  intros t' Ht'. rewrite (Hc _ _ Ht'), (Hc _ _ Ht).
  destruct (length palette) as [| n] eqn:E; [rewrite Nat.add_0_r; reflexivity |].
  rewrite <- (Nat.mul_1_l (S n)) at 1. rewrite Nat.Div0.mod_add. reflexivity.
Qed.

Lemma colours_cycle_witness :
  exists t t',
    nth_error (data (create_figure two_colours (table_of three_rows) position "race.csv"
                       None)) 0 = Some t
    /\ nth_error (data (create_figure two_colours (table_of three_rows) position "race.csv"
                          None)) 2 = Some t'
    /\ name t = "Ann Ames" /\ name t' = "Cy Cole"
    /\ color t' = color t.
Proof.
  exists (nth 0 (data (create_figure two_colours (table_of three_rows) position "race.csv"
                         None)) (mk_trace [] [] EmptyString [] EmptyString 0%Q)).
  exists (nth 2 (data (create_figure two_colours (table_of three_rows) position "race.csv"
                         None)) (mk_trace [] [] EmptyString [] EmptyString 0%Q)).
  split; [reflexivity |]. split; [reflexivity |].
  split; [reflexivity |]. split; [reflexivity |].
  assert (Hp : two_colours <> []) by discriminate.
  exact (proj2 (colours_cycle two_colours (table_of three_rows) position "race.csv" None 0
                  _ Hp eq_refl) _ eq_refl).
Defined.

Lemma column_max_upper (col : list (option Z)) (c : Z) :
  In (Some c) col -> exists m, column_max col = Some m /\ c <= m.
Proof.
  induction col as [| a col IH]; simpl; [contradiction |].
  unfold column_max in *. simpl.
  intros [-> | Hin].
  - destruct (fold_right nan_max None col) as [y |]; simpl; eexists; split;
      try reflexivity; lia.
  - destruct (IH Hin) as (m & -> & Hm).
    destruct a as [x |]; simpl; eexists; split; try reflexivity; lia.
Qed.

Lemma max_over_upper (view : list view_row) (v : view_row) (seg : segment) (g : Z) :
  In v view -> derived v seg = Some g ->
  exists top, max_over view = Some top /\ g <= top.
Proof.
  intros Hv Hg.
  destruct (column_max_upper (map (fun w => derived w seg) view) g) as (m & Hm & Hgm).
  { rewrite <- Hg. apply (in_map (fun w => derived w seg)), Hv. }
  destruct (column_max_upper
              (map (fun s => column_max (map (fun w => derived w s) view)) segments) m)
    as (top & Htop & Hmt).
  { rewrite <- Hm.
    apply (in_map (fun s => column_max (map (fun w => derived w s) view))).
    destruct seg; simpl; auto 6. }
  exists top. split; [exact Htop | lia].
Qed.

Lemma walk_values (value : segment -> option Z) (segs : list segment) :
  forall xs ys axs,
    walk value segs xs = (ys, axs) ->
    length ys = length axs
    /\ (length ys <= length segs)%nat
    /\ forall g, In g ys -> exists seg, In seg segs /\ value seg = Some g.
Proof.
  induction segs as [| seg segs IH]; intros xs ys axs H.
  - simpl in H. injection H as <- <-. repeat split; [apply le_n | contradiction].
  - destruct xs as [| xj xs]; simpl in H.
    + injection H as <- <-. repeat split; [simpl; lia | contradiction].
    + destruct (value seg) as [g0 |] eqn:E.
      * destruct (walk value segs xs) as [ys' axs'] eqn:W.
        injection H as <- <-.
        destruct (IH xs ys' axs' W) as (Hl & Hle & Hin).
        repeat split; [simpl; lia | simpl; lia |].
        intros g [<- | Hg].
        -- exists seg. split; [left; reflexivity | exact E].
        -- destruct (Hin g Hg) as (s & Hs & Hv). exists s. split; [right; exact Hs | exact Hv].
      * injection H as <- <-. repeat split; [simpl; lia | contradiction].
Qed.

Lemma gap_value (df : DataFrame) (seg : segment) (r : row) (g : Z) :
  In r df -> gap df seg r = Some g ->
  exists c m, cumulative seg r = Some c
              /\ column_min (map (cumulative seg) df) = Some m
              /\ g = c - m /\ m <= c.
Proof.
  intros Hr Hg. unfold gap in Hg.
  destruct (cumulative seg r) as [c |] eqn:Ec; [| discriminate Hg].
  assert (Hcol : In (Some c) (map (cumulative seg) df))
    by (rewrite <- Ec; apply in_map, Hr).
  destruct (column_min_lower _ c Hcol) as (m & Hm & Hle).
  rewrite Hm in Hg. simpl in Hg. injection Hg as <-.
  exists c, m. repeat split; assumption.
Qed.

Lemma column_max_in (col : list (option Z)) (m : Z) :
  column_max col = Some m -> In (Some m) col.
Proof.
  revert m. induction col as [| a col IH]; intro m; [discriminate |].
  unfold column_max in *. simpl.
  destruct a as [x |], (fold_right nan_max None col) as [y |]; simpl; intro H;
    try discriminate H; injection H as <-.
  - destruct (Z.max_spec x y) as [[_ E] | [_ E]]; rewrite E;
      [right; apply IH; reflexivity | left; reflexivity].
  - left; reflexivity.
  - right; apply IH; reflexivity.
Qed.

Lemma max_over_attained (view : list view_row) (top : Z) :
  max_over view = Some top ->
  exists v seg, In v view /\ derived v seg = Some top.
Proof.
  intro H. unfold max_over in H.
  apply column_max_in in H. apply in_map_iff in H as (seg & Hseg & _).
  apply column_max_in in Hseg. apply in_map_iff in Hseg as (v & Hv & Hin).
  exists v, seg. split; assumption.
Qed.

Lemma gap_view_row (df : DataFrame) (r : row) :
  In r df ->
  exists v, In v (add_gap_columns df) /\ athlete v = r
            /\ forall seg, derived v seg = gap df seg r.
Proof.
  intro Hr.
  exists {| athlete := r;
            derived := fun seg =>
              let leader_time := column_min (map (cumulative seg) df) in
              nan_sub (cumulative seg r) leader_time |}.
  split; [| split; reflexivity].
  unfold add_gap_columns.
  apply (in_map (fun r0 => {| athlete := r0;
                              derived := fun seg =>
                                let leader_time := column_min (map (cumulative seg) df) in
                                nan_sub (cumulative seg r0) leader_time |})), Hr.
Qed.

(** X13: in the gap view of a table within the exact range every point of
    every line lies inside the axis range that the layout sets.  The
    range runs from [max_gap] down to 0, where [max_gap] is the largest
    gap of the whole table - it is the gap of some athlete in some
    column, finisher or not, and no gap of any athlete exceeds it - and
    every plotted value is between 0 and [max_gap]. *)
Theorem gap_points_within_axis (palette : list string) (df : DataFrame)
    (filename : string) (h : option string) (t : trace) (g : Z) :
  exact_table df ->
  In t (data (create_figure palette df time_gap filename h)) ->
  In g (y t) ->
  exists max_gap,
    option_map yaxis_range (fig_layout (create_figure palette df time_gap filename h))
    = Some (Some (Some max_gap, 0))
    /\ (exists r seg, In r df /\ gap df seg r = Some max_gap)
    /\ (forall r seg g', In r df -> gap df seg r = Some g' -> g' <= max_gap)
    /\ 0 <= g <= max_gap.
Proof.
  unfold create_figure. simpl. intros _ Ht Hg.
  apply traces_from_in in Ht as (j & v & Hv & ->).
  apply (proj1 (sort_values_in _ _)) in Hv.
  apply filter_In in Hv as [Hv Hrun].
  pose proof (add_gap_columns_in df v Hv) as [Hr Hd].
  assert (Hnonneg : forall seg u, derived v seg = Some u ->
            0 <= u /\ exists top, max_over (add_gap_columns df) = Some top /\ u <= top).
  { intros seg u Hu. split.
    - rewrite Hd in Hu. destruct (gap_value df seg (athlete v) u Hr Hu)
        as (c & m & _ & _ & -> & Hle). lia.
    - exact (max_over_upper (add_gap_columns df) v seg u Hv Hu). }
  assert (Hfinish : exists u, derived v seg_Run = Some u).
  { rewrite Hd. unfold gap. simpl.
    destruct (Run_Cum (athlete v)) as [c |] eqn:Ec; [| discriminate Hrun].
    assert (Hcol : In (Some c) (map (cumulative seg_Run) df))
      by (simpl; rewrite <- Ec; apply (in_map Run_Cum), Hr).
    destruct (column_min_lower _ c Hcol) as (m & Hm & _).
    simpl in Hm. rewrite Hm. eexists; reflexivity. }
  destruct Hfinish as (u & Hu).
  destruct (Hnonneg seg_Run u Hu) as (Hu0 & top & Htop & Hut).
  exists top. rewrite Htop. split; [reflexivity |].
  split; [| split].
  - destruct (max_over_attained _ _ Htop) as (w & seg & Hw & Hwt).
    apply add_gap_columns_in in Hw as [Hwr Hwd].
    exists (athlete w), seg. split; [exact Hwr |]. rewrite <- Hwd. exact Hwt.
  - intros r seg g' Hr' Hg'.
    destruct (gap_view_row df r Hr') as (w & Hw & _ & Hwd).
    destruct (max_over_upper (add_gap_columns df) w seg g' Hw) as (top' & Htop' & Hle);
      [rewrite Hwd; exact Hg' |].
    rewrite Htop in Htop'. injection Htop' as <-. exact Hle.
  - unfold athlete_trace in Hg.
    destruct (walk (derived v) segments (tl x_values)) as [ys axs] eqn:W.
    simpl in Hg. destruct Hg as [<- | Hg]; [lia |].
    destruct (walk_values _ _ _ _ _ W) as (_ & _ & Hin).
    destruct (Hin g Hg) as (seg & _ & Hs).
    destruct (Hnonneg seg g Hs) as (H0 & top' & Htop' & Hle).
    rewrite Htop in Htop'. injection Htop' as <-. lia.
Qed.

Lemma gap_points_within_axis_witness :
  exact_table (table_of three_rows)
  /\ exists t g,
       In t (data (create_figure two_colours (table_of three_rows) time_gap "race.csv" None))
       /\ name t = "Bob Birk" /\ In g (y t) /\ g = 315
       /\ exists max_gap,
            option_map yaxis_range
              (fig_layout (create_figure two_colours (table_of three_rows) time_gap
                             "race.csv" None))
            = Some (Some (Some max_gap, 0))
            /\ (exists r seg, In r (table_of three_rows)
                              /\ gap (table_of three_rows) seg r = Some max_gap)
            /\ (forall r seg g', In r (table_of three_rows) ->
                                 gap (table_of three_rows) seg r = Some g' -> g' <= max_gap)
            /\ 0 <= g <= max_gap.
Proof.
  assert (He : exact_table (table_of three_rows)) by reflexivity.
  split; [exact He |].
  exists (nth 1 (data (create_figure two_colours (table_of three_rows) time_gap "race.csv"
                         None)) (mk_trace [] [] EmptyString [] EmptyString 0%Q)).
  exists 315.
  assert (Ht : In (nth 1 (data (create_figure two_colours (table_of three_rows) time_gap
                                  "race.csv" None))
                       (mk_trace [] [] EmptyString [] EmptyString 0%Q))
                  (data (create_figure two_colours (table_of three_rows) time_gap
                           "race.csv" None)))
    by (right; left; reflexivity).
  assert (Hg : In 315 (y (nth 1 (data (create_figure two_colours (table_of three_rows)
                                         time_gap "race.csv" None))
                             (mk_trace [] [] EmptyString [] EmptyString 0%Q))))
    by (vm_compute; auto 7).
  split; [exact Ht |]. split; [reflexivity |]. split; [exact Hg |]. split; [reflexivity |].
  exact (gap_points_within_axis two_colours (table_of three_rows) "race.csv" None _ 315
           He Ht Hg).
Defined.

(** X14: in the rank view every line has the value 0 at Start and, at each
    of the five segments, a rank between 1 and the number of athletes of
    the table. *)
Theorem rank_points_in_range (palette : list string) (df : DataFrame)
    (filename : string) (h : option string) (t : trace) :
  In t (data (create_figure palette df position filename h)) ->
  exists ys,
    y t = 0 :: ys /\ length ys = 5%nat
    /\ forall g, In g ys -> 1 <= g <= Z.of_nat (length df).
Proof.
  intro Ht.
  destruct (position_lines_complete palette df filename h t Ht)
    as (r & ys & Hr & _ & _ & Hy & Hys).
  exists ys. split; [exact Hy |].
  split; [apply Forall2_length in Hys; rewrite <- Hys; reflexivity |].
  intros g Hg.
  assert (Hex : exists seg, g = rank_min_bottom (map (cumulative seg) df) (cumulative seg r)).
  { clear - Hys Hg. induction Hys as [| seg g' segs ys Hg' _ IH]; [contradiction |].
    destruct Hg as [<- | Hg]; [exists seg; exact Hg' | apply IH, Hg]. }
  destruct Hex as (seg & ->).
  rewrite <- (length_map (cumulative seg) df).
  apply rank_range, in_map, Hr.
Qed.

Lemma rank_points_in_range_witness :
  exists t ys,
    In t (data (create_figure two_colours (table_of three_rows) position "race.csv" None))
    /\ name t = "Cy Cole"
    /\ y t = 0 :: ys /\ length ys = 5%nat
    /\ forall g, In g ys -> 1 <= g <= Z.of_nat (length (table_of three_rows)).
Proof.
  exists (nth 2 (data (create_figure two_colours (table_of three_rows) position "race.csv"
                         None)) (mk_trace [] [] EmptyString [] EmptyString 0%Q)).
  assert (Ht : In (nth 2 (data (create_figure two_colours (table_of three_rows) position
                                  "race.csv" None))
                       (mk_trace [] [] EmptyString [] EmptyString 0%Q))
                  (data (create_figure two_colours (table_of three_rows) position
                           "race.csv" None)))
    by (right; right; left; reflexivity).
  destruct (rank_points_in_range two_colours (table_of three_rows) "race.csv" None _ Ht)
    as (ys & Hy & Hl & Hr).
  exists ys. split; [exact Ht |]. split; [reflexivity |].
  split; [exact Hy |]. split; [exact Hl | exact Hr].
Defined.

Lemma filter_none {A} (p : A -> bool) (l : list A) :
  (forall a, In a l -> p a = false) -> filter p l = [].
Proof.
  induction l as [| a l IH]; intro H; [reflexivity |].
  simpl. rewrite (H a (or_introl eq_refl)). apply IH.
  intros b Hb. apply H. right. exact Hb.
Qed.

Lemma column_min_none (col : list (option Z)) :
  column_min col = None -> forall u, In u col -> u = None.
Proof.
  induction col as [| a col IH]; [contradiction |].
  unfold column_min in *. simpl. intros H u [<- | Hu].
  - destruct a as [x |]; [| reflexivity].
    destruct (fold_right nan_min None col); discriminate H.
  - apply IH; [| exact Hu].
    destruct a as [x |], (fold_right nan_min None col); try discriminate H; reflexivity.
Qed.

Lemma rank_one_exists (col : list (option Z)) :
  col <> [] -> exists v, In v col /\ rank_min_bottom col v = 1.
Proof.
  intro Hne. destruct (column_min col) as [m |] eqn:Em.
  - exists (Some m). split; [apply column_min_in, Em |].
    unfold rank_min_bottom. rewrite filter_none; [reflexivity |].
    intros [c |] Hc; simpl; [| reflexivity].
    destruct (column_min_lower col c Hc) as (m' & Hm' & Hle).
    rewrite Em in Hm'. injection Hm' as <-. apply Z.ltb_ge. lia.
  - destruct col as [| u col]; [contradiction Hne; reflexivity |].
    exists u. split; [left; reflexivity |].
    unfold rank_min_bottom. rewrite filter_none; [reflexivity |].
    intros a Ha. rewrite (column_min_none _ Em a Ha). reflexivity.
Qed.

Lemma traces_from_covers (palette : list string) (m : mode) (max_rank : option Z)
    (y_axis_title : string) (h : option string) (view : list view_row) (v : view_row) :
  In v view ->
  forall i, exists j,
    In (athlete_trace palette m max_rank y_axis_title h j v)
       (traces_from palette m max_rank y_axis_title h i view).
Proof.
  induction view as [| u view IH]; intros Hv i; [contradiction |].
  destruct Hv as [-> | Hv].
  - exists i. left. reflexivity.
  - destruct (IH Hv (S i)) as (j & Hj). exists j. right. exact Hj.
Qed.

Lemma per_segment {P : segment -> Z -> Prop} (ys : list Z) :
  Forall2 P segments ys -> forall seg, P seg (nth (seg_index seg) ys 0).
Proof.
  intros H seg. unfold segments in H.
  inversion H as [| ? g0 ? l0 P0 H0]; subst.
  inversion H0 as [| ? g1 ? l1 P1 H1]; subst.
  inversion H1 as [| ? g2 ? l2 P2 H2]; subst.
  inversion H2 as [| ? g3 ? l3 P3 H3]; subst.
  inversion H3 as [| ? g4 ? l4 P4 H4]; subst.
  destruct seg; assumption.
Qed.

(** X15: in the rank view of a table that is not empty every segment has
    a line at rank 1: the athlete with the least cumulative value of the
    column, or any athlete when the column holds no value at all. *)
Theorem every_column_has_rank_one (palette : list string) (df : DataFrame)
    (filename : string) (h : option string) (seg : segment) :
  df <> [] ->
  exists t,
    In t (data (create_figure palette df position filename h))
    /\ nth (S (seg_index seg)) (y t) 0 = 1.
Proof.
  intro Hne.
  destruct (rank_one_exists (map (cumulative seg) df)) as (u & Hu & Hrank).
  { destruct df; [contradiction Hne; reflexivity | discriminate]. }
  apply in_map_iff in Hu as (r & <- & Hr).
  set (v := {| athlete := r;
               derived := fun s =>
                 Some (rank_min_bottom (map (cumulative s) df) (cumulative s r)) |}).
  assert (Hv : In v (sort_values (add_rank_columns df))).
  { apply sort_values_in. unfold add_rank_columns.
    apply (in_map (fun r0 => {| athlete := r0;
                                derived := fun s =>
                                  Some (rank_min_bottom (map (cumulative s) df)
                                          (cumulative s r0)) |})), Hr. }
  destruct (traces_from_covers palette position (max_over (add_rank_columns df)) "Rank" h
              _ v Hv 0%nat) as (j & Hj).
  exists (athlete_trace palette position (max_over (add_rank_columns df)) "Rank" h j v).
  split; [exact Hj |].
  destruct (complete_trace palette position (max_over (add_rank_columns df)) "Rank" h j v)
    as (ys & Hys & _ & Hy & _).
  { intro s. eexists; reflexivity. }
  rewrite Hy. simpl nth.
  pose proof (per_segment ys Hys seg) as Hs. simpl in Hs.
  injection Hs as Hs. rewrite <- Hs. exact Hrank.
Qed.

Lemma every_column_has_rank_one_witness :
  table_of three_rows <> []
  /\ exists t,
       In t (data (create_figure two_colours (table_of three_rows) position "race.csv" None))
       /\ nth (S (seg_index seg_Bike)) (y t) 0 = 1.
Proof.
  assert (H : table_of three_rows <> []) by discriminate.
  split; [exact H |].
  exact (every_column_has_rank_one two_colours (table_of three_rows) "race.csv" None
           seg_Bike H).
Defined.

Lemma hover_text_length (n y_axis_title : string) (ys : list Z) :
  (length ys <= 6)%nat -> length (hover_text n y_axis_title ys) = length ys.
Proof.
  intro H. unfold hover_text. rewrite length_map, length_combine.
  change (length x_labels) with 6%nat. lia.
Qed.

Lemma athlete_trace_lengths (palette : list string) (m : mode) (max_rank : option Z)
    (y_axis_title : string) (h : option string) (i : nat) (v : view_row) :
  let t := athlete_trace palette m max_rank y_axis_title h i v in
  length (x t) = length (y t) /\ length (text t) = length (y t)
  /\ (1 <= length (y t) <= 6)%nat.
Proof.
  unfold athlete_trace.
  destruct (walk (derived v) segments (tl x_values)) as [ys axs] eqn:W.
  destruct (walk_values _ _ _ _ _ W) as (Hl & Hle & _).
  change (length segments) with 5%nat in *.
  destruct m.
  - destruct (_ <? _)%nat eqn:E; cbv zeta; simpl x; simpl y; simpl text.
    + apply Nat.ltb_lt in E. simpl in E.
      rewrite hover_text_length; simpl; rewrite ?length_app; simpl; lia.
    + rewrite hover_text_length; simpl; lia.
  - cbv zeta; simpl x; simpl y; simpl text.
    rewrite hover_text_length; simpl; lia.
Qed.

(** X16: every line of every chart is well formed: it has as many x
    values as y values and one hover label per point, at least the Start
    point and at most six points. *)
Theorem lines_well_formed (palette : list string) (df : DataFrame) (m : mode)
    (filename : string) (h : option string) (t : trace) :
  In t (data (create_figure palette df m filename h)) ->
  length (x t) = length (y t) /\ length (text t) = length (y t)
  /\ (1 <= length (y t) <= 6)%nat
  /\ nth 0 (x t) 1%Q = 0%Q /\ nth 0 (y t) 1 = 0.
Proof.
  intro Ht.
  assert (Hex : exists mr title j v,
             t = athlete_trace palette m mr title h j v).
  { unfold create_figure in Ht. destruct m; simpl in Ht;
      apply traces_from_in in Ht as (j & v & _ & ->); do 4 eexists; reflexivity. }
  destruct Hex as (mr & title & j & v & ->).
  destruct (athlete_trace_lengths palette m mr title h j v) as (H1 & H2 & H3).
  split; [exact H1 |]. split; [exact H2 |]. split; [exact H3 |].
  unfold athlete_trace.
  destruct (walk (derived v) segments (tl x_values)) as [ys axs].
  destruct m; [destruct (_ <? _)%nat |]; split; reflexivity.
Qed.

Lemma lines_well_formed_witness :
  exists t,
    In t (data (create_figure two_colours (table_of three_rows) time_gap "race.csv" None))
    /\ length (x t) = length (y t) /\ length (text t) = length (y t)
    /\ (1 <= length (y t) <= 6)%nat
    /\ nth 0 (x t) 1%Q = 0%Q /\ nth 0 (y t) 1 = 0.
Proof.
  exists (nth 0 (data (create_figure two_colours (table_of three_rows) time_gap "race.csv"
                         None)) (mk_trace [] [] EmptyString [] EmptyString 0%Q)).
  assert (Ht : In (nth 0 (data (create_figure two_colours (table_of three_rows) time_gap
                                  "race.csv" None))
                       (mk_trace [] [] EmptyString [] EmptyString 0%Q))
                  (data (create_figure two_colours (table_of three_rows) time_gap
                           "race.csv" None)))
    by (left; reflexivity).
  split; [exact Ht |].
  exact (lines_well_formed two_colours (table_of three_rows) time_gap "race.csv" None _ Ht).
Defined.

Lemma gaps_all_present (df : DataFrame) (r : row) (c : Z) :
  cumulative_built r -> In r df -> Run_Cum r = Some c ->
  forall seg, exists g, gap df seg r = Some g.
Proof.
  intros Hb Hr Ec seg.
  destruct (built_presence r seg seg_Run c Hb Ec) as (u & Hu);
    [destruct seg; simpl; lia |].
  assert (Hcol : In (Some u) (map (cumulative seg) df))
    by (rewrite <- Hu; apply in_map, Hr).
  destruct (column_min_lower _ u Hcol) as (m & Hm & _).
  exists (u - m). unfold gap. rewrite Hu, Hm. reflexivity.
Qed.

(** X17: in the gap view of a returned table that has at least one
    finisher, the finisher with the least cumulative Run value is drawn,
    with all six points, and the line ends on gap 0: the leader at the
    finish is never dropped from the view. *)
Theorem finish_leader_drawn (b64decode : string -> option string)
    (read_csv : string -> read_result)
    (contents filename : string) (df : DataFrame) (msg : option string)
    (palette : list string) (h : option string) :
  process_data b64decode read_csv contents filename = Ok (Some df, msg) ->
  (exists r, In r df /\ present (Run_Cum r) = true) ->
  exists t r m,
    In t (data (create_figure palette df time_gap filename h))
    /\ In r df /\ name t = athlete_name r
    /\ Run_Cum r = Some m
    /\ (forall r' c, In r' df -> Run_Cum r' = Some c -> m <= c)
    /\ length (y t) = 6%nat /\ nth 5 (y t) 1 = 0.
Proof.
  intros Hp (r0 & Hr0 & Hrun0).
  destruct (Run_Cum r0) as [c0 |] eqn:E0; [| discriminate Hrun0].
  assert (Hcol0 : In (Some c0) (map (cumulative seg_Run) df))
    by (simpl; rewrite <- E0; apply (in_map Run_Cum), Hr0).
  destruct (column_min_lower _ c0 Hcol0) as (m & Hm & _).
  pose proof (column_min_in _ m Hm) as Hin.
  apply in_map_iff in Hin as (r & Hrm & Hr). simpl in Hrm.
  set (v := {| athlete := r;
               derived := fun seg =>
                 let leader_time := column_min (map (cumulative seg) df) in
                 nan_sub (cumulative seg r) leader_time |}).
  assert (Hv : In v (sort_values (filter (fun w => match Run_Cum (athlete w) with
                                                   | Some _ => true
                                                   | None => false
                                                   end) (add_gap_columns df)))).
  { apply sort_values_in. apply filter_In. split.
    - unfold add_gap_columns.
      apply (in_map (fun r0 => {| athlete := r0;
                                  derived := fun seg =>
                                    let leader_time := column_min (map (cumulative seg) df) in
                                    nan_sub (cumulative seg r0) leader_time |})), Hr.
    - simpl. rewrite Hrm. reflexivity. }
  destruct (traces_from_covers palette time_gap None "Time Gap to Leader (seconds)" h
              _ v Hv 0%nat) as (j & Hj).
  pose proof (process_data_built b64decode read_csv contents filename df msg r Hp Hr) as Hb.
  destruct (complete_trace palette time_gap None "Time Gap to Leader (seconds)" h j v)
    as (ys & Hys & _ & Hy & Hn).
  { intro seg. exact (gaps_all_present df r m Hb Hr Hrm seg). }
  exists (athlete_trace palette time_gap None "Time Gap to Leader (seconds)" h j v), r, m.
  split; [unfold create_figure; simpl; exact Hj |].
  split; [exact Hr |]. split; [exact Hn |]. split; [exact Hrm |].
  split.
  { intros r' c Hr' Hc.
    assert (Hcol : In (Some c) (map (cumulative seg_Run) df))
      by (simpl; rewrite <- Hc; apply (in_map Run_Cum), Hr').
    destruct (column_min_lower _ c Hcol) as (m' & Hm' & Hle).
    rewrite Hm in Hm'. injection Hm' as <-. exact Hle. }
  rewrite Hy. split.
  - apply Forall2_length in Hys. simpl. rewrite <- Hys. reflexivity.
  - pose proof (per_segment ys Hys seg_Run) as Hs. simpl in Hs.
    simpl in Hm. rewrite Hrm, Hm in Hs. simpl in Hs. injection Hs as Hs.
    simpl nth. rewrite (nth_indep ys 1 0);
      [rewrite <- Hs; lia | apply Forall2_length in Hys; rewrite <- Hys; simpl; lia].
Qed.

Lemma finish_leader_drawn_witness :
  (exists r, In r (table_of three_rows) /\ present (Run_Cum r) = true)
  /\ exists t r m,
       In t (data (create_figure two_colours (table_of three_rows) time_gap "race.csv" None))
       /\ In r (table_of three_rows) /\ name t = athlete_name r
       /\ Run_Cum r = Some m
       /\ (forall r' c, In r' (table_of three_rows) -> Run_Cum r' = Some c -> m <= c)
       /\ length (y t) = 6%nat /\ nth 5 (y t) 1 = 0.
Proof.
  assert (H : exists r, In r (table_of three_rows) /\ present (Run_Cum r) = true).
  { exists (with_cumulative bob (Some 660) (Some 70) (Some 1920) (Some 55) (Some 1320)
              (Some 4025)).
    split; [right; left; reflexivity | reflexivity]. }
  split; [exact H |].
  exact (finish_leader_drawn example_b64decode three_rows "data:text/csv;base64," "race.csv"
           (table_of three_rows) None two_colours None eq_refl H).
Defined.

(** ** The chart reads the key columns only *)

Lemma walk_ext (f g : segment -> option Z) (segs : list segment) :
  (forall seg, f seg = g seg) -> forall xs, walk f segs xs = walk g segs xs.
Proof.
  intro H. induction segs as [| seg segs IH]; intros [| xj xs]; simpl; try reflexivity.
  rewrite H, IH. reflexivity.
Qed.

Lemma chart_key_fields (r s : row) :
  chart_key r = chart_key s ->
  athlete_name r = athlete_name s /\ Position r = Position s
  /\ forall seg, cumulative seg r = cumulative seg s.
Proof.
  unfold chart_key, athlete_name. simpl. intro H.
  injection H as H1 H2 H3 H4 H5 H6 H7 H8.
  split; [rewrite H1, H2; reflexivity |]. split; [exact H3 |].
  intros []; assumption.
Qed.

Lemma same_keys_pointwise (df1 df2 : DataFrame) :
  map chart_key df1 = map chart_key df2 ->
  Forall2 (fun r s => chart_key r = chart_key s) df1 df2.
Proof.
  revert df2. induction df1 as [| r df1 IH]; intros [| s df2] H; try discriminate H.
  - constructor.
  - constructor.
    + exact (f_equal (hd (chart_key r)) H).
    + apply IH. exact (f_equal (@tl _) H).
Qed.

Lemma same_keys_columns (df1 df2 : DataFrame) (seg : segment) :
  Forall2 (fun r s => chart_key r = chart_key s) df1 df2 ->
  map (cumulative seg) df1 = map (cumulative seg) df2.
Proof.
  induction 1 as [| r s df1 df2 Hk _ IH]; [reflexivity |].
  simpl. rewrite IH. f_equal. apply chart_key_fields, Hk.
Qed.

Lemma same_line_insert (v w : view_row) (l1 l2 : list view_row) :
  same_line v w -> Forall2 same_line l1 l2 ->
  Forall2 same_line (insert_by_position v l1) (insert_by_position w l2).
Proof.
  intros Hvw H. induction H as [| a b l1 l2 Hab Hl IH]; simpl.
  - constructor; [exact Hvw | constructor].
  - destruct (chart_key_fields _ _ (proj1 Hvw)) as (_ & Pv & _).
    destruct (chart_key_fields _ _ (proj1 Hab)) as (_ & Pa & _).
    rewrite Pv, Pa.
    destruct (position_le (Position (athlete w)) (Position (athlete b))).
    + constructor; [exact Hvw |]. constructor; assumption.
    + constructor; [exact Hab | exact IH].
Qed.

Lemma same_line_sort (l1 l2 : list view_row) :
  Forall2 same_line l1 l2 -> Forall2 same_line (sort_values l1) (sort_values l2).
Proof.
  unfold sort_values. induction 1 as [| v w l1 l2 Hvw _ IH]; simpl; [constructor |].
  apply same_line_insert; assumption.
Qed.

Lemma same_line_filter (l1 l2 : list view_row) :
  Forall2 same_line l1 l2 ->
  Forall2 same_line
    (filter (fun v => match Run_Cum (athlete v) with Some _ => true | None => false end) l1)
    (filter (fun v => match Run_Cum (athlete v) with Some _ => true | None => false end) l2).
Proof.
  induction 1 as [| v w l1 l2 Hvw _ IH]; simpl; [constructor |].
  destruct (chart_key_fields _ _ (proj1 Hvw)) as (_ & _ & Hc).
  specialize (Hc seg_Run). simpl in Hc. rewrite Hc.
  destruct (Run_Cum (athlete w)); [constructor; assumption | exact IH].
Qed.

Lemma same_line_max (l1 l2 : list view_row) :
  Forall2 same_line l1 l2 -> max_over l1 = max_over l2.
Proof.
  intro H. unfold max_over. f_equal.
  apply map_ext. intro seg. f_equal.
  induction H as [| v w l1 l2 Hvw _ IH]; [reflexivity |].
  simpl. rewrite IH, (proj2 Hvw seg). reflexivity.
Qed.

Lemma same_line_traces (palette : list string) (m : mode) (max_rank : option Z)
    (y_axis_title : string) (h : option string) (l1 l2 : list view_row) :
  Forall2 same_line l1 l2 ->
  forall i, traces_from palette m max_rank y_axis_title h i l1
            = traces_from palette m max_rank y_axis_title h i l2.
Proof.
  induction 1 as [| v w l1 l2 Hvw _ IH]; intro i; [reflexivity |].
  simpl. rewrite IH. f_equal.
  unfold athlete_trace.
  rewrite (walk_ext (derived v) (derived w) segments (proj2 Hvw)).
  destruct (chart_key_fields _ _ (proj1 Hvw)) as (-> & _ & _).
  reflexivity.
Qed.

(** X19: the chart is a function of the names, the position and the five
    cumulative columns alone: two tables that agree on these columns, row
    by row, give the same figure in either mode, whatever their six time
    columns hold.  [create_figure] never reads Total Time. *)
Theorem chart_reads_key_columns (palette : list string) (df1 df2 : DataFrame) (m : mode)
    (filename : string) (h : option string) :
  map chart_key df1 = map chart_key df2 ->
  create_figure palette df1 m filename h = create_figure palette df2 m filename h.
Proof.
  intro H. apply same_keys_pointwise in H.
  pose proof (fun seg => same_keys_columns df1 df2 seg H) as Hcol.
  assert (Hrank : Forall2 same_line (add_rank_columns df1) (add_rank_columns df2)).
  { unfold add_rank_columns.
    assert (G : forall l1 l2, Forall2 (fun r s => chart_key r = chart_key s) l1 l2 ->
                Forall2 same_line
                  (map (fun r => {| athlete := r;
                                    derived := fun seg =>
                                      Some (rank_min_bottom (map (cumulative seg) df1)
                                              (cumulative seg r)) |}) l1)
                  (map (fun r => {| athlete := r;
                                    derived := fun seg =>
                                      Some (rank_min_bottom (map (cumulative seg) df2)
                                              (cumulative seg r)) |}) l2)).
    { induction 1 as [| r s l1 l2 Hk _ IH]; simpl; constructor; [| exact IH].
      split; [exact Hk |]. intro seg. simpl.
      rewrite (Hcol seg), (proj2 (proj2 (chart_key_fields _ _ Hk)) seg). reflexivity. }
    apply G, H. }
  assert (Hgap : Forall2 same_line (add_gap_columns df1) (add_gap_columns df2)).
  { unfold add_gap_columns.
    assert (G : forall l1 l2, Forall2 (fun r s => chart_key r = chart_key s) l1 l2 ->
                Forall2 same_line
                  (map (fun r => {| athlete := r;
                                    derived := fun seg =>
                                      let leader_time :=
                                        column_min (map (cumulative seg) df1) in
                                      nan_sub (cumulative seg r) leader_time |}) l1)
                  (map (fun r => {| athlete := r;
                                    derived := fun seg =>
                                      let leader_time :=
                                        column_min (map (cumulative seg) df2) in
                                      nan_sub (cumulative seg r) leader_time |}) l2)).
    { induction 1 as [| r s l1 l2 Hk _ IH]; simpl; constructor; [| exact IH].
      split; [exact Hk |]. intro seg. simpl.
      rewrite (Hcol seg), (proj2 (proj2 (chart_key_fields _ _ Hk)) seg). reflexivity. }
    apply G, H. }
  unfold create_figure. destruct m; cbv zeta beta iota.
  - rewrite (same_line_max _ _ Hrank).
    rewrite (same_line_traces palette position _ "Rank" h _ _ (same_line_sort _ _ Hrank)).
    reflexivity.
  - rewrite (same_line_max _ _ Hgap).
    rewrite (same_line_traces palette time_gap None "Time Gap to Leader (seconds)" h _ _
               (same_line_sort _ _ (same_line_filter _ _ Hgap))).
    reflexivity.
Qed.

Lemma chart_reads_key_columns_witness :
  create_figure two_colours (table_of three_rows) time_gap "race.csv" None
  = create_figure two_colours
      (map (fun r => mk_row (Athlete_First_Name r) (Athlete_Last_Name r) (Position r)
                       None None None None None (Some 0)
                       (Swim_Cum r) (T1_Cum r) (Bike_Cum r) (T2_Cum r) (Run_Cum r))
           (table_of three_rows))
      time_gap "race.csv" None.
Proof.
  apply (chart_reads_key_columns two_colours). reflexivity.
Defined.

(** ** The two views order athletes alike *)

Lemma rank_present_le (col : list (option Z)) (a b : Z) :
  a <= b -> rank_min_bottom col (Some a) <= rank_min_bottom col (Some b).
Proof.
  intro Hab. unfold rank_min_bottom.
  assert (length (filter (fun u => sorts_before u (Some a)) col)
          <= length (filter (fun u => sorts_before u (Some b)) col))%nat; [| lia].
  apply filter_length_le.
  intros [c |]; simpl; [| discriminate].
  intro H. apply Z.ltb_lt in H. apply Z.ltb_lt. lia.
Qed.

(** X20: within a column of a table within the exact range the rank
    view and the gap view order the athletes alike: of two athletes with
    a value in the column, one has the smaller gap exactly when it has
    the smaller rank, and they have equal gaps exactly when they share a
    rank. *)
Theorem views_agree_on_order (df : DataFrame) (seg : segment) (r1 r2 : row) (g1 g2 : Z) :
  exact_table df ->
  In r1 df -> In r2 df ->
  gap df seg r1 = Some g1 -> gap df seg r2 = Some g2 ->
  let rank r := rank_min_bottom (map (cumulative seg) df) (cumulative seg r) in
  (g1 < g2 <-> rank r1 < rank r2) /\ (g1 = g2 <-> rank r1 = rank r2).
Proof.
  intros _ H1 H2 G1 G2 rank. unfold rank.
  destruct (gap_value df seg r1 g1 H1 G1) as (c1 & m1 & E1 & M1 & -> & _).
  destruct (gap_value df seg r2 g2 H2 G2) as (c2 & m2 & E2 & M2 & -> & _).
  rewrite M1 in M2. injection M2 as <-.
  rewrite E1, E2.
  assert (I1 : In (Some c1) (map (cumulative seg) df))
    by (rewrite <- E1; apply in_map, H1).
  assert (I2 : In (Some c2) (map (cumulative seg) df))
    by (rewrite <- E2; apply in_map, H2).
  destruct (Z.lt_trichotomy c1 c2) as [Hlt | [-> | Hgt]].
  - pose proof (rank_present_lt _ c1 c2 I1 Hlt). split; split; intros; lia.
  - split; split; intros; lia.
  - pose proof (rank_present_lt _ c2 c1 I2 Hgt). split; split; intros; lia.
Qed.

Lemma views_agree_on_order_witness :
  exact_table (table_of three_rows)
  /\ exists r1 r2,
    In r1 (table_of three_rows) /\ In r2 (table_of three_rows)
    /\ gap (table_of three_rows) seg_Swim r1 = Some 60
    /\ gap (table_of three_rows) seg_Swim r2 = Some 120
    /\ ((60 < 120 <->
         rank_min_bottom (map (cumulative seg_Swim) (table_of three_rows))
           (cumulative seg_Swim r1)
         < rank_min_bottom (map (cumulative seg_Swim) (table_of three_rows))
             (cumulative seg_Swim r2))
        /\ (60 = 120 <->
            rank_min_bottom (map (cumulative seg_Swim) (table_of three_rows))
              (cumulative seg_Swim r1)
            = rank_min_bottom (map (cumulative seg_Swim) (table_of three_rows))
                (cumulative seg_Swim r2))).
Proof.
  assert (He : exact_table (table_of three_rows)) by reflexivity.
  split; [exact He |].
  exists (with_cumulative ann (Some 600) (Some 60) (Some 1800) (Some 50) (Some 1200)
            (Some 3710)).
  exists (with_cumulative bob (Some 660) (Some 70) (Some 1920) (Some 55) (Some 1320)
            (Some 4025)).
  assert (H1 : In (with_cumulative ann (Some 600) (Some 60) (Some 1800) (Some 50)
                     (Some 1200) (Some 3710)) (table_of three_rows))
    by (left; reflexivity).
  assert (H2 : In (with_cumulative bob (Some 660) (Some 70) (Some 1920) (Some 55)
                     (Some 1320) (Some 4025)) (table_of three_rows))
    by (right; left; reflexivity).
  split; [exact H1 |]. split; [exact H2 |].
  split; [reflexivity |]. split; [reflexivity |].
  exact (views_agree_on_order (table_of three_rows) seg_Swim _ _ 60 120 He H1 H2
           eq_refl eq_refl).
Defined.

(** ** [update_button_state_and_message] *)

Lemma contains_unfold (sub s : string) :
  Py.contains sub s
  = (String.prefix sub s
     || match s with
        | EmptyString => false
        | String _ t => Py.contains sub t
        end)%bool.
Proof. destruct s; reflexivity. Qed.

Lemma prefix_here (s post : string) : String.prefix s (s ++ post) = true.
Proof.
  induction s as [| a s IH]; [destruct post; reflexivity |].
  cbn [String.append]. rewrite prefix_step.
  destruct (ascii_dec a a) as [_ | Hn]; [exact IH | contradiction Hn; reflexivity].
Qed.

Lemma contains_after (sub pre s : string) :
  Py.contains sub s = true -> Py.contains sub (pre ++ s) = true.
Proof.
  intro H. induction pre as [| a pre IH]; [exact H |].
  cbn [String.append]. rewrite contains_unfold, IH. apply orb_true_r.
Qed.

Lemma contains_here (sub post : string) : Py.contains sub (sub ++ post) = true.
Proof. rewrite contains_unfold, prefix_here. reflexivity. Qed.

(** X18: the Visualize button is disabled exactly when no file has been
    uploaded; for every uploaded file, whatever its name or type, the
    message names the file and reports a successful upload - the file is
    not looked at before [update_graph] runs. *)
Theorem upload_message_names_file (contents : option string) (filename : string) :
  (fst (update_button_state_and_message contents filename) = true <-> contents = None)
  /\ (contents <> None ->
      Py.contains filename (snd (update_button_state_and_message contents filename)) = true
      /\ Py.contains "uploaded successfully"
           (snd (update_button_state_and_message contents filename)) = true).
Proof.
  destruct contents as [c |]; simpl fst; simpl snd.
  - split; [split; discriminate |]. intros _. split.
    + apply (contains_after filename "File '"), contains_here.
    + apply (contains_after _ "File '"), contains_after.
      apply (contains_after _ "' "). reflexivity.
  - split; [split; reflexivity |]. intro H. contradiction H. reflexivity.
Qed.

Lemma upload_message_names_file_witness :
  Some "data:text/plain;base64," <> None
  /\ Py.contains "notes.txt"
       (snd (update_button_state_and_message (Some "data:text/plain;base64,") "notes.txt"))
     = true
  /\ update_graph two_colours example_b64decode three_rows visualize_button (Some position) None
       (Some "data:text/plain;base64,") "notes.txt"
     = Ok (empty_figure, display_none).
Proof.
  assert (H : Some "data:text/plain;base64," <> @None string) by discriminate.
  split; [exact H |].
  split; [| reflexivity].
  exact (proj1 (proj2 (upload_message_names_file (Some "data:text/plain;base64,")
                         "notes.txt") H)).
Defined.

